(** * Hybrid job recommendation engine: a shallow embedding and its properties

    The development follows [recommendation_service/recommendation_engine.py],
    [database.py], [config.py] and the [/recommendations] handler of [main.py].

    Modelling conventions.
    - Python [float] scores are exact rationals ([Q]); the literals [0.4],
      [0.05], ... are the fractions they denote, and [==] is [Qeq].
    - Python [str] is [string]; [str.lower] and the regex class [\w] are the
      ASCII ones (letters, digits, underscore), which is what they are on ASCII
      text.
    - Records follow the dataclasses and their declared field types; a field
      declared with default [None] is an [option].  Exceptions that only
      ill-typed data could raise are outside the model, and with them the
      catch-all handlers that would swallow them.
    - A [dict] with string keys is a [gmap string _], a [set] of words a
      [gset string].
    - The engine's mutable similarity cache is threaded explicitly.
    - The libraries the engine calls (the sentence encoder followed by
      [cosine_similarity], the TF-IDF vectoriser, [hashlib.md5]) and the SQL
      server are taken as parameters; a call that raises is [None]
      (respectively [Raises]). *)

From Stdlib Require Import ZArith QArith Qabs Lqa Lia Ascii String List Sorted.
From stdpp Require Import gmap strings list pretty.

Set Warnings "-clear-no-such-hyp".

Local Open Scope string_scope.
Local Open Scope list_scope.

(** ** Rational helpers *)

Definition Qltb (a b : Q) : bool := negb (Qle_bool b a).

(** Python's [min(a, b)]: the second argument when it is strictly smaller. *)
Definition py_min (a b : Q) : Q := if Qltb b a then b else a.

(** [len(xs) / len(ys)] on floats. *)
Definition ratio (a b : nat) : Q := (inject_Z (Z.of_nat a) / inject_Z (Z.of_nat b))%Q.

(** Python's [xs[:k]] for an integer [k]. *)
Definition py_take {A} (k : Z) (xs : list A) : list A :=
  if (0 <=? k)%Z then firstn (Z.to_nat k) xs
  else firstn (length xs - Z.to_nat (- k)) xs.

(** ** Text primitives *)

Module Text.

Definition between (lo hi : nat) (c : ascii) : bool :=
  let n := nat_of_ascii c in (lo <=? n)%nat && (n <=? hi)%nat.

Definition is_upper (c : ascii) : bool := between 65 90 c.

Definition lower_char (c : ascii) : ascii :=
  if is_upper c then ascii_of_nat (nat_of_ascii c + 32) else c.

(** [s.lower()] *)
Fixpoint lower (s : string) : string :=
  match s with
  | EmptyString => EmptyString
  | String c r => String (lower_char c) (lower r)
  end.

(** the regex class [\w] *)
Definition is_word_char (c : ascii) : bool :=
  between 97 122 c || between 65 90 c || between 48 57 c || (nat_of_ascii c =? 95)%nat.

Definition flush (cur : string) : list string :=
  match cur with EmptyString => [] | _ => [cur] end.

(** [re.findall(r'\w+', s)]: the maximal runs of word characters, left to
    right; [cur] is the run being read. *)
Fixpoint findall_from (cur s : string) : list string :=
  match s with
  | EmptyString => flush cur
  | String c r =>
      if is_word_char c then findall_from (cur +:+ String c EmptyString) r
      else flush cur ++ findall_from EmptyString r
  end.

Definition findall_words (s : string) : list string := findall_from EmptyString s.

(** [needle in hay] on strings *)
Fixpoint contains (hay needle : string) : bool :=
  String.prefix needle hay ||
  match hay with
  | EmptyString => false
  | String _ r => contains r needle
  end.

(** [sep.join(parts)] *)
Fixpoint join (sep : string) (parts : list string) : string :=
  match parts with
  | [] => ""
  | [p] => p
  | p :: rest => p +:+ sep +:+ join sep rest
  end.

(** [s.split(',')] ; [cur] is the piece being read. *)
Fixpoint split_from (cur s : string) : list string :=
  match s with
  | EmptyString => [cur]
  | String c r =>
      if Ascii.eqb c "," then cur :: split_from EmptyString r
      else split_from (cur +:+ String c EmptyString) r
  end.

Definition split_comma (s : string) : list string := split_from EmptyString s.

(** truthiness of a string *)
Definition nonempty (s : string) : bool :=
  match s with EmptyString => false | _ => true end.

End Text.

(** ** Data model *)

(** An element of a JSON array stored in a resume column. *)
Inductive Item :=
  | ItemStr (s : string)
  | ItemDict (d : gmap string string)
  | ItemOther.

(** [d.get(k, '')] *)
Definition dict_get (d : gmap string string) (k : string) : string :=
  default "" (d !! k).

Module UserProfile.
Record t := mk {
  user_id : Z;
  first_name : string;
  last_name : string;
  student_type : string;
  courses : list (string * string);
  age : option Z;
  profile_completed : bool;
  has_completed_resume : bool;
  skills : option (list string);
  work_experience : option (list Item);
  education : option (list Item);
  professional_summary : option string;
  languages : option (list string);
  hobbies : option string
}.
End UserProfile.

Module JobProfile.
Record t := mk {
  job_id : Z;
  title : string;
  category : string;
  description : string;
  summary : option string;
  location : string;
  work_type : string;
  work_arrangement : string;
  experience_level : string;
  min_salary : option Q;
  max_salary : option Q;
  company_name : string;
  application_count : Z
}.
End JobProfile.

Module RecommendationScore.
Record t := mk {
  job_id : Z;
  content_score : Q;
  knowledge_score : Q;
  hybrid_score : Q;
  confidence : Q;
  reasons : list string;
  job_title : string;
  job_category : string;
  company_name : string
}.

Definition with_hybrid_score (h : Q) (r : t) : t :=
  mk (job_id r) (content_score r) (knowledge_score r) h (confidence r)
     (reasons r) (job_title r) (job_category r) (company_name r).

Definition append_reason (s : string) (r : t) : t :=
  mk (job_id r) (content_score r) (knowledge_score r) (hybrid_score r)
     (confidence r) (reasons r ++ [s]) (job_title r) (job_category r)
     (company_name r).
End RecommendationScore.

(** ** Configuration ([config.py]) *)

Module Config.
Record t := mk {
  CONTENT_WEIGHT : Q;
  KNOWLEDGE_WEIGHT : Q;
  MIN_RECOMMENDATION_SCORE : Q;
  MAX_RECOMMENDATIONS : Z;
  SKILLS_WEIGHT : Q;
  EDUCATION_WEIGHT : Q;
  EXPERIENCE_WEIGHT : Q;
  COURSE_WEIGHT : Q;
  LOCATION_WEIGHT : Q;
  USE_SEMANTIC_SIMILARITY : bool;
  SENTENCE_TRANSFORMER_MODEL : string;
  NLP_CACHE_SIZE : Z;
  ENABLE_POPULARITY_BOOST : bool;
  ENABLE_DIVERSITY_BOOST : bool
}.

(** the values used when no environment variable overrides them *)
Definition defaults : t :=
  mk (4 # 10) (6 # 10) (3 # 10) 50
     (30 # 100) (25 # 100) (20 # 100) (15 # 100) (10 # 100)
     true "all-MiniLM-L6-v2" 1000 true true.

Definition Qabs_lt (x bound : Q) : bool := Qltb x bound && Qltb (- x) bound.

Definition validate_weights (c : t) : bool :=
  let total_content_weight :=
    (SKILLS_WEIGHT c + EDUCATION_WEIGHT c + EXPERIENCE_WEIGHT c
     + COURSE_WEIGHT c + LOCATION_WEIGHT c)%Q in
  Qabs_lt (total_content_weight - 1) (1 # 100).

Definition validate_hybrid_weights (c : t) : bool :=
  let total_hybrid_weight := (CONTENT_WEIGHT c + KNOWLEDGE_WEIGHT c)%Q in
  Qabs_lt (total_hybrid_weight - 1) (1 # 100).
End Config.

(** ** Data access ([database.py]) *)

(** What running a statement on the SQL server gives: the fetched result, or
    an exception (connection lost, SQL error, ...). *)
Inductive Query (A : Type) :=
  | Rows (a : A)
  | Raises.
Arguments Rows {A} a.
Arguments Raises {A}.

(** The row of [user_profiles] joined with the user's courses. *)
Record ProfileRow := {
  row_first_name : string;
  row_last_name : string;
  row_student_type : string;
  row_age : option Z;
  row_profile_completed : bool;
  row_courses : option string;
  row_graduation_statuses : option string
}.

(** The dictionary [get_user_profile] returns: the row plus [courses_list]. *)
Record ProfileData := {
  pd_first_name : string;
  pd_last_name : string;
  pd_student_type : string;
  pd_age : option Z;
  pd_profile_completed : bool;
  pd_courses_list : list (string * string)
}.

(** The newest row of [resumes], its JSON columns decoded ([None] for NULL,
    for an empty value and for a column that does not decode). *)
Record ResumeData := {
  rd_professional_summary : option string;
  rd_work_experience : option (list Item);
  rd_education : option (list Item);
  rd_skills : option (list Item);
  rd_languages : option (list Item);
  rd_hobbies : option string
}.

(** A row of the active-jobs query. *)
Record JobData := {
  jd_id : Z;
  jd_title : string;
  jd_category : string;
  jd_description : option string;
  jd_summary : option string;
  jd_location : string;
  jd_work_type : string;
  jd_work_arrangement : string;
  jd_experience_level : string;
  jd_min_salary : option Q;
  jd_max_salary : option Q;
  jd_company_name : string;
  jd_application_count : Z
}.

Record SqlServer := {
  select_user_profile : Z -> Query (option ProfileRow);
  select_user_resume : Z -> bool -> Query (option ResumeData);
  select_active_jobs : option Z -> Query (list JobData);
  select_job_categories : Query (list (string * string));
  select_popular_jobs : Z -> Query (list Z)
}.

Module DatabaseManager.

Definition parse_courses (row : ProfileRow) : list (string * string) :=
  match row_courses row with
  | Some cs =>
      if Text.nonempty cs then
        let courses := Text.split_comma cs in
        let graduation_statuses :=
          match row_graduation_statuses row with
          | Some gs => if Text.nonempty gs then Text.split_comma gs else []
          | None => []
          end in
        combine courses graduation_statuses
      else []
  | None => []
  end.

(** Every failure of the read is caught and becomes "no profile". *)
Definition get_user_profile (sql : SqlServer) (user_id : Z) : option ProfileData :=
  match select_user_profile sql user_id with
  | Rows (Some row) =>
      Some {| pd_first_name := row_first_name row;
              pd_last_name := row_last_name row;
              pd_student_type := row_student_type row;
              pd_age := row_age row;
              pd_profile_completed := row_profile_completed row;
              pd_courses_list := parse_courses row |}
  | Rows None => None
  | Raises => None
  end.

Definition get_user_resume (sql : SqlServer) (user_id : Z) (only_completed : bool)
  : option ResumeData :=
  match select_user_resume sql user_id only_completed with
  | Rows (Some resume) => Some resume
  | Rows None => None
  | Raises => None
  end.

(** [if limit:] adds the LIMIT clause only for a non-zero limit. *)
Definition get_active_jobs (sql : SqlServer) (limit : option Z) : list JobData :=
  let limit := match limit with
               | Some n => if (n =? 0)%Z then None else Some n
               | None => None
               end in
  match select_active_jobs sql limit with
  | Rows jobs => jobs
  | Raises => []
  end.

(** Groups the [(course_name, category_name)] rows by course. *)
Definition group_categories (rows : list (string * string)) : gmap string (list string) :=
  foldl (fun mapping row =>
           let '(course, category) := row in
           <[course := default [] (mapping !! course) ++ [category]]> mapping)
        ∅ rows.

(** A failing query is logged and answered with the empty mapping. *)
Definition get_job_categories_mapping (sql : SqlServer) : gmap string (list string) :=
  match select_job_categories sql with
  | Rows rows => group_categories rows
  | Raises => ∅
  end.

Definition get_popular_jobs (sql : SqlServer) (limit : Z) : list Z :=
  match select_popular_jobs sql limit with
  | Rows ids => ids
  | Raises => []
  end.

End DatabaseManager.

(** ** The engine ([recommendation_engine.py]) *)

(** [cosine_similarity] of the two encodings the sentence transformer gives
    for a pair of texts; [None] when encoding or the product raises. *)
Definition SentenceModel := string -> string -> option Q.

(** [fit_transform] on the two texts followed by [cosine_similarity];
    [None] when the vectoriser raises (for instance on an empty vocabulary). *)
Definition TfidfVectorizer := string -> string -> option Q.

(** What the Python environment provides. *)
Record Libs := {
  md5_hexdigest : string -> string;
  SENTENCE_TRANSFORMERS_AVAILABLE : bool;
  SentenceTransformer : string -> option SentenceModel;
  SKLEARN_AVAILABLE : bool;
  new_TfidfVectorizer : TfidfVectorizer
}.

Module Engine.
Record t := mk {
  is_initialized : bool;
  sentence_model : option SentenceModel;
  tfidf_vectorizer : option TfidfVectorizer;
  embeddings_cache : gmap string Q;
  job_categories_mapping : gmap string (list string);
  popular_jobs : list Z
}.

(** [__init__] *)
Definition new : t := mk false None None ∅ ∅ [].

Definition with_cache (c : gmap string Q) (e : t) : t :=
  mk (is_initialized e) (sentence_model e) (tfidf_vectorizer e) c
     (job_categories_mapping e) (popular_jobs e).
End Engine.

Inductive Exception :=
  | ValueError (msg : string).

Inductive Outcome (A : Type) :=
  | Returned (a : A)
  | Raised (e : Exception).
Arguments Returned {A} a.
Arguments Raised {A} e.

(** Python's [max(a, b)]: the second argument when it is strictly larger. *)
Definition py_max (a b : Q) : Q := if Qltb a b then b else a.

(** [xs.index(x)], [None] when [x not in xs]. *)
Fixpoint index_of (x : Z) (xs : list Z) : option nat :=
  match xs with
  | [] => None
  | y :: ys => if (y =? x)%Z then Some 0%nat else option_map S (index_of x ys)
  end.

(** [sorted(..., key=hybrid_score, reverse=True)]: stable, so among equal
    scores the earlier element stays first. *)
Fixpoint insert_desc (r : RecommendationScore.t) (sorted : list RecommendationScore.t)
  : list RecommendationScore.t :=
  match sorted with
  | [] => [r]
  | s :: rest =>
      if Qltb (RecommendationScore.hybrid_score r) (RecommendationScore.hybrid_score s)
      then s :: insert_desc r rest
      else r :: s :: rest
  end.

Definition sort_desc (recs : list RecommendationScore.t) : list RecommendationScore.t :=
  foldr insert_desc [] recs.

Section WithEnvironment.

Context (lib : Libs) (cfg : Config.t) (sql : SqlServer).

Import Config.
Local Open Scope Q_scope.

(** *** Lifecycle *)

Definition _load_ml_models (e : Engine.t) : Engine.t :=
  let sentence_model :=
    if SENTENCE_TRANSFORMERS_AVAILABLE lib && USE_SEMANTIC_SIMILARITY cfg
    then SentenceTransformer lib (SENTENCE_TRANSFORMER_MODEL cfg)
    else Engine.sentence_model e in
  let tfidf_vectorizer :=
    if SKLEARN_AVAILABLE lib then Some (new_TfidfVectorizer lib)
    else Engine.tfidf_vectorizer e in
  Engine.mk (Engine.is_initialized e) sentence_model tfidf_vectorizer
            (Engine.embeddings_cache e) (Engine.job_categories_mapping e)
            (Engine.popular_jobs e).

Definition _load_job_categories_mapping (e : Engine.t) : Engine.t :=
  Engine.mk (Engine.is_initialized e) (Engine.sentence_model e)
            (Engine.tfidf_vectorizer e) (Engine.embeddings_cache e)
            (DatabaseManager.get_job_categories_mapping sql)
            (Engine.popular_jobs e).

Definition _load_popular_jobs (e : Engine.t) : Engine.t :=
  if ENABLE_POPULARITY_BOOST cfg then
    Engine.mk (Engine.is_initialized e) (Engine.sentence_model e)
              (Engine.tfidf_vectorizer e) (Engine.embeddings_cache e)
              (Engine.job_categories_mapping e)
              (DatabaseManager.get_popular_jobs sql 50)
  else e.

Definition initialize (e : Engine.t) : Engine.t :=
  let e := _load_ml_models e in
  let e := _load_job_categories_mapping e in
  let e := _load_popular_jobs e in
  Engine.mk true (Engine.sentence_model e) (Engine.tfidf_vectorizer e)
            (Engine.embeddings_cache e) (Engine.job_categories_mapping e)
            (Engine.popular_jobs e).

Definition is_ready (e : Engine.t) : bool := Engine.is_initialized e.

Definition retrain_models (e : Engine.t) : Engine.t :=
  let e := _load_job_categories_mapping e in
  let e := _load_popular_jobs e in
  Engine.with_cache ∅ e.

(** *** Feature builders *)

Definition _extract_skills_from_resume (resume_data : ResumeData) : list string :=
  match rd_skills resume_data with
  | Some skills =>
      flat_map (fun skill =>
                  match skill with
                  | ItemDict d =>
                      match d !! "name", d !! "skill" with
                      | Some n, _ => [n]
                      | None, Some s => [s]
                      | None, None => []
                      end
                  | ItemStr s => [s]
                  | ItemOther => []
                  end) skills
  | None => []
  end.

Definition _extract_languages_from_resume (resume_data : ResumeData) : list string :=
  match rd_languages resume_data with
  | Some languages =>
      flat_map (fun lang =>
                  match lang with
                  | ItemDict d =>
                      match d !! "language" with Some l => [l] | None => [] end
                  | ItemStr s => [s]
                  | ItemOther => []
                  end) languages
  | None => []
  end.

(** Both reads catch their own failures, so the handler of this function,
    which would also turn an exception into [None], has nothing left to catch. *)
Definition _build_user_profile (user_id : Z) : option UserProfile.t :=
  match DatabaseManager.get_user_profile sql user_id with
  | None => None
  | Some profile_data =>
      let resume_data := DatabaseManager.get_user_resume sql user_id true in
      Some
        match resume_data with
        | Some resume_data =>
            UserProfile.mk user_id (pd_first_name profile_data)
              (pd_last_name profile_data) (pd_student_type profile_data)
              (pd_courses_list profile_data) (pd_age profile_data)
              (pd_profile_completed profile_data)
              true
              (Some (_extract_skills_from_resume resume_data))
              (rd_work_experience resume_data)
              (rd_education resume_data)
              (rd_professional_summary resume_data)
              (Some (_extract_languages_from_resume resume_data))
              (rd_hobbies resume_data)
        | None =>
            UserProfile.mk user_id (pd_first_name profile_data)
              (pd_last_name profile_data) (pd_student_type profile_data)
              (pd_courses_list profile_data) (pd_age profile_data)
              (pd_profile_completed profile_data)
              false None None None None None None
        end
  end.

Definition _build_job_profile (job_data : JobData) : JobProfile.t :=
  JobProfile.mk (jd_id job_data) (jd_title job_data) (jd_category job_data)
    (default "" (jd_description job_data)) (jd_summary job_data)
    (jd_location job_data) (jd_work_type job_data)
    (jd_work_arrangement job_data) (jd_experience_level job_data)
    (jd_min_salary job_data) (jd_max_salary job_data)
    (jd_company_name job_data) (jd_application_count job_data).

(** *** Content scorer *)

(** the text both skill functions search: [f"{title} {description}".lower()] *)
Definition skills_job_text (job_profile : JobProfile.t) : string :=
  Text.lower (JobProfile.title job_profile +:+ " " +:+ JobProfile.description job_profile).

Definition skill_matches (job_text skill : string) : bool :=
  Text.contains job_text (Text.lower skill).

Definition _calculate_skills_match (user_skills : list string) (job_profile : JobProfile.t) : Q :=
  match user_skills with
  | [] => 0
  | _ =>
      let job_text := skills_job_text job_profile in
      let matching_skills :=
        foldl (fun n skill => if skill_matches job_text skill then S n else n)
              0%nat user_skills in
      ratio matching_skills (length user_skills)
  end.

Definition _get_matching_skills (user_skills : list string) (job_profile : JobProfile.t)
  : list string :=
  let job_text := skills_job_text job_profile in
  filter (fun skill => skill_matches job_text skill = true) user_skills.

Definition experience_education_map : gmap string Q :=
  <["entry-level" := 8 # 10]> (<["mid-level" := 6 # 10]>
    (<["senior-level" := 4 # 10]> (<["executive" := 2 # 10]> ∅))).

Definition _calculate_education_match (user_profile : UserProfile.t)
    (job_profile : JobProfile.t) : Q :=
  let base_score :=
    if String.eqb (UserProfile.student_type user_profile) "alumni"
    then 8 # 10 else 6 # 10 in
  let experience_modifier :=
    default (5 # 10) (experience_education_map !! JobProfile.experience_level job_profile) in
  (base_score * experience_modifier)%Q.

Definition _calculate_experience_match (user_profile : UserProfile.t)
    (job_profile : JobProfile.t) : Q :=
  if negb (UserProfile.has_completed_resume user_profile) then 3 # 10
  else
    let experience_count :=
      match UserProfile.work_experience user_profile with
      | Some ((_ :: _) as w) => length w
      | _ => 0%nat
      end in
    let level := JobProfile.experience_level job_profile in
    if String.eqb level "entry-level" then
      if (0 <=? experience_count)%nat then 9 # 10 else 6 # 10
    else if String.eqb level "mid-level" then
      if (1 <=? experience_count)%nat then 8 # 10 else 4 # 10
    else if String.eqb level "senior-level" then
      if (2 <=? experience_count)%nat then 7 # 10 else 3 # 10
    else
      if (3 <=? experience_count)%nat then 6 # 10 else 2 # 10.

Definition _calculate_course_match (e : Engine.t)
    (user_courses : list (string * string)) (job_category : string) : Q :=
  match user_courses with
  | [] => 0
  | _ =>
      foldl (fun max_score course =>
               let '(course_name, graduation_status) := course in
               match Engine.job_categories_mapping e !! course_name with
               | Some categories =>
                   if bool_decide (job_category ∈ categories) then
                     let score :=
                       if String.eqb graduation_status "graduated" then 1 else 8 # 10 in
                     py_max max_score score
                   else max_score
               | None => max_score
               end)
            0 user_courses
  end.

Definition _calculate_content_score (e : Engine.t) (user_profile : UserProfile.t)
    (job_profile : JobProfile.t) : Q * list string :=
  let score := 0 in
  let reasons := [] in
  (* Skills matching *)
  let '(score, reasons) :=
    match UserProfile.skills user_profile with
    | Some ((_ :: _) as user_skills) =>
        let skills_score := _calculate_skills_match user_skills job_profile in
        (score + SKILLS_WEIGHT cfg * skills_score,
         if Qltb (5 # 10) skills_score then
           match _get_matching_skills user_skills job_profile with
           | [] => reasons
           | matching_skills =>
               reasons ++ ["Skills match: " +:+ Text.join ", " (firstn 3 matching_skills)]
           end
         else reasons)
    | _ => (score, reasons)
    end in
  (* Education matching *)
  let education_score := _calculate_education_match user_profile job_profile in
  let score := score + EDUCATION_WEIGHT cfg * education_score in
  let reasons :=
    if Qltb (5 # 10) education_score then
      reasons ++ ["Education level matches " +:+ JobProfile.experience_level job_profile
                  +:+ " requirements"]
    else reasons in
  (* Experience matching *)
  let experience_score := _calculate_experience_match user_profile job_profile in
  let score := score + EXPERIENCE_WEIGHT cfg * experience_score in
  let reasons :=
    if Qltb (5 # 10) experience_score then
      reasons ++ ["Experience level aligns with " +:+ JobProfile.experience_level job_profile
                  +:+ " role"]
    else reasons in
  (* Course-category matching *)
  let course_score :=
    _calculate_course_match e (UserProfile.courses user_profile)
                            (JobProfile.category job_profile) in
  let score := score + COURSE_WEIGHT cfg * course_score in
  let reasons :=
    if Qltb (7 # 10) course_score then
      reasons ++ ["Your course background fits " +:+ JobProfile.category job_profile
                  +:+ " field"]
    else reasons in
  (* Location preference: neutral placeholder *)
  let location_score := 5 # 10 in
  let score := score + LOCATION_WEIGHT cfg * location_score in
  (py_min 1 score, reasons).

(** *** Text similarity backends *)

Definition _calculate_semantic_similarity_bert (model : SentenceModel)
    (cache : gmap string Q) (user_text job_text : string) : Q * gmap string Q :=
  let cache_key := md5_hexdigest lib (user_text +:+ "||" +:+ job_text) in
  match cache !! cache_key with
  | Some cached => (cached, cache)
  | None =>
      match model user_text job_text with
      | Some similarity =>
          (similarity,
           if (Z.of_nat (size cache) <? NLP_CACHE_SIZE cfg)%Z
           then <[cache_key := similarity]> cache
           else cache)
      | None => (0, cache)
      end
  end.

Definition _calculate_tfidf_similarity (vectorizer : TfidfVectorizer)
    (user_text job_text : string) : Q :=
  match vectorizer user_text job_text with
  | Some similarity => similarity
  | None => 0
  end.

Definition word_set (text : string) : gset string :=
  list_to_set (Text.findall_words (Text.lower text)).

Definition _calculate_simple_text_similarity (user_text job_text : string) : Q :=
  let user_words := word_set user_text in
  let job_words := word_set job_text in
  if bool_decide (user_words = ∅) || bool_decide (job_words = ∅) then 0
  else
    let intersection := user_words ∩ job_words in
    let union := user_words ∪ job_words in
    if bool_decide (union = ∅) then 0
    else ratio (size intersection) (size union).

(** *** Knowledge scorer *)

Definition item_text (k1 k2 k3 : string) (it : Item) : list string :=
  match it with
  | ItemDict d => [dict_get d k1 +:+ " " +:+ dict_get d k2 +:+ " " +:+ dict_get d k3]
  | _ => []
  end.

Definition _create_user_text (user_profile : UserProfile.t) : string :=
  let text_parts := [] in
  let text_parts :=
    match UserProfile.professional_summary user_profile with
    | Some s => if Text.nonempty s then text_parts ++ [s] else text_parts
    | None => text_parts
    end in
  let text_parts :=
    match UserProfile.skills user_profile with
    | Some ((_ :: _) as skills) => text_parts ++ [Text.join " " skills]
    | _ => text_parts
    end in
  let text_parts :=
    match UserProfile.work_experience user_profile with
    | Some exps =>
        text_parts ++ flat_map (item_text "jobTitle" "company" "description") exps
    | None => text_parts
    end in
  let text_parts :=
    match UserProfile.education user_profile with
    | Some edus =>
        text_parts ++ flat_map (item_text "degree" "fieldOfStudy" "school") edus
    | None => text_parts
    end in
  let text_parts :=
    text_parts ++ map (fun c => fst c +:+ " " +:+ snd c) (UserProfile.courses user_profile) in
  Text.lower (Text.join " " text_parts).

Definition _create_job_text (job_profile : JobProfile.t) : string :=
  let text_parts :=
    [ JobProfile.title job_profile;
      JobProfile.category job_profile;
      JobProfile.description job_profile;
      default "" (JobProfile.summary job_profile);
      JobProfile.work_type job_profile;
      JobProfile.experience_level job_profile ] in
  Text.lower (Text.join " " text_parts).

Definition resume_reason : string := "Complete your resume for better job matching".

Definition similarity_reasons (similarity : Q) : list string :=
  if Qltb (7 # 10) similarity then
    ["Strong semantic match between your profile and job requirements"]
  else if Qltb (5 # 10) similarity then
    ["Good compatibility with job description"]
  else if Qltb (3 # 10) similarity then
    ["Some relevant experience matches job needs"]
  else [].

(** The strategy for one pair of texts; only the embedding path touches the
    cache. *)
Definition similarity_backend (e : Engine.t) (cache : gmap string Q)
    (user_text job_text : string) : Q * gmap string Q :=
  match Engine.sentence_model e with
  | Some model => _calculate_semantic_similarity_bert model cache user_text job_text
  | None =>
      match Engine.tfidf_vectorizer e with
      | Some vectorizer =>
          if SKLEARN_AVAILABLE lib
          then (_calculate_tfidf_similarity vectorizer user_text job_text, cache)
          else (_calculate_simple_text_similarity user_text job_text, cache)
      | None => (_calculate_simple_text_similarity user_text job_text, cache)
      end
  end.

Definition _calculate_knowledge_score (e : Engine.t) (cache : gmap string Q)
    (user_profile : UserProfile.t) (job_profile : JobProfile.t)
  : (Q * list string) * gmap string Q :=
  if negb (UserProfile.has_completed_resume user_profile) then
    ((0, [resume_reason]), cache)
  else
    let user_text := _create_user_text user_profile in
    let job_text := _create_job_text job_profile in
    if negb (Text.nonempty user_text) || negb (Text.nonempty job_text) then
      ((0, []), cache)
    else
      let '(similarity, cache) := similarity_backend e cache user_text job_text in
      let score := similarity in
      ((py_min 1 score, similarity_reasons similarity), cache).

(** *** Hybrid composer *)

Definition _calculate_confidence (user_profile : UserProfile.t)
    (content_score knowledge_score : Q) : Q :=
  let confidence := 5 # 10 in
  let confidence :=
    if UserProfile.profile_completed user_profile
    then confidence + (2 # 10) else confidence in
  let confidence :=
    if UserProfile.has_completed_resume user_profile
    then confidence + (3 # 10) else confidence in
  let score_diff := Qabs (content_score - knowledge_score) in
  let confidence :=
    if Qltb score_diff (2 # 10) then confidence + (1 # 10) else confidence in
  py_min 1 confidence.

(** One iteration of the scoring loop: the candidate, if it passes the
    threshold, and the cache afterwards. *)
Definition score_job (e : Engine.t) (cache : gmap string Q)
    (user_profile : UserProfile.t) (include_reasons : bool)
    (job_profile : JobProfile.t)
  : option RecommendationScore.t * gmap string Q :=
  let '(content_score, content_reasons) :=
    _calculate_content_score e user_profile job_profile in
  let '((knowledge_score, knowledge_reasons), cache) :=
    _calculate_knowledge_score e cache user_profile job_profile in
  let hybrid_score :=
    CONTENT_WEIGHT cfg * content_score + KNOWLEDGE_WEIGHT cfg * knowledge_score in
  let confidence := _calculate_confidence user_profile content_score knowledge_score in
  let all_reasons :=
    if include_reasons then content_reasons ++ knowledge_reasons else [] in
  if Qle_bool (MIN_RECOMMENDATION_SCORE cfg) hybrid_score then
    (Some (RecommendationScore.mk (JobProfile.job_id job_profile)
             content_score knowledge_score hybrid_score confidence all_reasons
             (JobProfile.title job_profile) (JobProfile.category job_profile)
             (JobProfile.company_name job_profile)),
     cache)
  else (None, cache).

Fixpoint _calculate_hybrid_recommendations (e : Engine.t) (cache : gmap string Q)
    (user_profile : UserProfile.t) (job_profiles : list JobProfile.t)
    (include_reasons : bool)
  : list RecommendationScore.t * gmap string Q :=
  match job_profiles with
  | [] => ([], cache)
  | job_profile :: rest =>
      let '(candidate, cache) :=
        score_job e cache user_profile include_reasons job_profile in
      let '(recommendations, cache) :=
        _calculate_hybrid_recommendations e cache user_profile rest include_reasons in
      (match candidate with
       | Some recommendation => recommendation :: recommendations
       | None => recommendations
       end, cache)
  end.

(** *** Post-processor *)

(** [0.1 * (1 - rank_index / len(popular_jobs))] *)
Definition rank_boost (rank_index len : nat) : Q :=
  (1 # 10) * (1 - ratio rank_index len).

(** the boost of a job: [None] when [job_id not in popular_jobs] *)
Definition popularity_boost (popular_jobs : list Z) (job_id : Z) : option Q :=
  match index_of job_id popular_jobs with
  | Some rank_index => Some (rank_boost rank_index (length popular_jobs))
  | None => None
  end.

(** the body of the popularity loop, for one recommendation *)
Definition boost_popular (popular_jobs : list Z) (rec : RecommendationScore.t)
  : RecommendationScore.t :=
  match popularity_boost popular_jobs (RecommendationScore.job_id rec) with
  | Some boost =>
      let rec :=
        RecommendationScore.with_hybrid_score
          (py_min 1 (RecommendationScore.hybrid_score rec + boost)) rec in
      if Qltb (5 # 100) boost
      then RecommendationScore.append_reason "Popular job opportunity" rec
      else rec
  | None => rec
  end.

(** [defaultdict(int)] filled with one count per recommendation *)
Definition count_categories (recommendations : list RecommendationScore.t)
  : gmap string nat :=
  foldl (fun category_counts rec =>
           let c := RecommendationScore.job_category rec in
           <[c := S (default 0%nat (category_counts !! c))]> category_counts)
        ∅ recommendations.

Definition _apply_diversity_boost (recommendations : list RecommendationScore.t)
  : list RecommendationScore.t :=
  let category_counts := count_categories recommendations in
  map (fun rec =>
         if (default 0%nat (category_counts !! RecommendationScore.job_category rec)
             =? 1)%nat
         then RecommendationScore.with_hybrid_score
                (py_min 1 (RecommendationScore.hybrid_score rec + (5 # 100))) rec
         else rec)
      recommendations.

(** the popularity loop of [_apply_post_processing] *)
Definition apply_popularity_boost (e : Engine.t)
    (recommendations : list RecommendationScore.t) : list RecommendationScore.t :=
  match Engine.popular_jobs e with
  | (_ :: _) as popular_jobs =>
      if ENABLE_POPULARITY_BOOST cfg
      then map (boost_popular popular_jobs) recommendations
      else recommendations
  | [] => recommendations
  end.

Definition _apply_post_processing (e : Engine.t)
    (recommendations : list RecommendationScore.t) : list RecommendationScore.t :=
  let recommendations := apply_popularity_boost e recommendations in
  if ENABLE_DIVERSITY_BOOST cfg
  then _apply_diversity_boost recommendations
  else recommendations.

(** *** Entry point *)

Definition not_initialized : Exception :=
  ValueError "Recommendation engine not initialized".

Definition no_profile_found (user_id : Z) : Exception :=
  ValueError ("No profile found for user " +:+ pretty user_id).

(** The result and the engine afterwards (its cache may have grown).  The
    analytics write that follows is caught inside the data-access layer and
    has no bearing on either. *)
Definition get_recommendations (e : Engine.t) (user_id : Z) (limit : Z)
    (include_reasons : bool)
  : Outcome (list RecommendationScore.t) * Engine.t :=
  if negb (is_ready e) then (Raised not_initialized, e)
  else
    match _build_user_profile user_id with
    | None => (Raised (no_profile_found user_id), e)
    | Some user_profile =>
        match DatabaseManager.get_active_jobs sql (Some (MAX_RECOMMENDATIONS cfg)) with
        | [] => (Returned [], e)
        | jobs =>
            let job_profiles := map _build_job_profile jobs in
            let '(recommendations, cache) :=
              _calculate_hybrid_recommendations e (Engine.embeddings_cache e)
                user_profile job_profiles include_reasons in
            let recommendations := _apply_post_processing e recommendations in
            let recommendations := sort_desc recommendations in
            let final_recommendations := py_take limit recommendations in
            (Returned final_recommendations, Engine.with_cache cache e)
        end
    end.

(** *** The [/recommendations] handler of [main.py] *)

Inductive Response :=
  | Success (recommendations : list RecommendationScore.t)
  | HTTPException (status_code : Z) (detail : string).

Definition recommendations_endpoint (e : Engine.t) (user_id limit : Z)
    (include_reasons : bool) : Response :=
  match fst (get_recommendations e user_id limit include_reasons) with
  | Returned recs => Success recs
  | Raised (ValueError msg) => HTTPException 400 msg
  end.

End WithEnvironment.

(** ** Notions the properties are stated with *)



(** [counts P xs n]: exactly [n] elements of [xs], counted with repetition,
    satisfy [P]. *)
Inductive counts {A : Type} (P : A -> Prop) : list A -> nat -> Prop :=
  | counts_nil : counts P [] 0
  | counts_yes x xs n : P x -> counts P xs n -> counts P (x :: xs) (S n)
  | counts_no x xs n : ~ P x -> counts P xs n -> counts P (x :: xs) n.


(** ** Sample data *)

Definition sample_job : JobProfile.t :=
  JobProfile.mk 7 "Python Developer" "IT" "We need python and SQL skills" None
    "Manila" "full-time" "onsite" "entry-level" None None "ACME" 3.

Definition sample_libs : Libs :=
  {| md5_hexdigest := fun s => s;
     SENTENCE_TRANSFORMERS_AVAILABLE := false;
     SentenceTransformer := fun _ => None;
     SKLEARN_AVAILABLE := false;
     new_TfidfVectorizer := fun _ _ => None |}.

(** a user whose resume is complete *)
Definition sample_user : UserProfile.t :=
  UserProfile.mk 1 "Ana" "Cruz" "alumni" [("BSIT", "graduated")] None true
    true (Some ["Python"; "SQL"]) (Some []) None (Some "python developer") (Some []) None.

(** the same user before any resume was completed *)
Definition sample_user_no_resume : UserProfile.t :=
  UserProfile.mk 1 "Ana" "Cruz" "alumni" [("BSIT", "graduated")] None true
    false None None None None None None.

(** an initialised engine without ML models: job 7 is the most popular job *)
Definition sample_engine : Engine.t :=
  Engine.mk true None None ∅ (<["BSIT" := ["IT"]]> ∅) [7%Z].

(** what the scoring loop yields for [sample_user] and [sample_job] *)
Definition sample_candidate : RecommendationScore.t :=
  match fst (_calculate_hybrid_recommendations sample_libs Config.defaults
                 sample_engine ∅ sample_user [sample_job] true) with
  | r :: _ => r
  | [] => RecommendationScore.mk 0 0 0 0 0 [] "" "" ""
  end.

(** a second candidate, for job 9 *)
Definition other_candidate : RecommendationScore.t :=
  RecommendationScore.mk 9 (5 # 10) (5 # 10) (5 # 10) 1 [] "Data Analyst" "Analytics" "Initech".

(** an engine whose popular-jobs list ranks job 7 before job 9 *)
Definition two_popular_engine : Engine.t :=
  Engine.mk true None None ∅ (<["BSIT" := ["IT"]]> ∅) [7%Z; 9%Z].

(** [boosted cand rec]: [rec] is the candidate [cand] after post-processing:
    the same job with the same content and knowledge scores, and a hybrid
    score not below the candidate's (up to the cap at 1). *)
Definition boosted (cand rec : RecommendationScore.t) : Prop :=
  RecommendationScore.job_id rec = RecommendationScore.job_id cand
  /\ RecommendationScore.content_score rec = RecommendationScore.content_score cand
  /\ RecommendationScore.knowledge_score rec = RecommendationScore.knowledge_score cand
  /\ (py_min 1 (RecommendationScore.hybrid_score cand)
      <= RecommendationScore.hybrid_score rec)%Q.

(** The candidates [get_recommendations] hands to the post-processor: the
    output of the scoring loop, which applies the threshold. *)
Definition candidate_set (lib : Libs) (cfg : Config.t) (sql : SqlServer)
    (e : Engine.t) (user_id : Z) (include_reasons : bool)
  : list RecommendationScore.t :=
  match _build_user_profile sql user_id with
  | Some user_profile =>
      let jobs := DatabaseManager.get_active_jobs sql (Some (Config.MAX_RECOMMENDATIONS cfg)) in
      fst (_calculate_hybrid_recommendations lib cfg e (Engine.embeddings_cache e)
             user_profile (map (_build_job_profile) jobs) include_reasons)
  | None => []
  end.

(** a server holding one user (id 1, with a completed resume) and one job *)
Definition sample_profile_row : ProfileRow :=
  {| row_first_name := "Ana"; row_last_name := "Cruz"; row_student_type := "alumni";
     row_age := None; row_profile_completed := true;
     row_courses := Some "BSIT"; row_graduation_statuses := Some "graduated" |}.

Definition sample_resume : ResumeData :=
  {| rd_professional_summary := Some "python developer";
     rd_work_experience := Some [];
     rd_education := None;
     rd_skills := Some [ItemStr "Python"; ItemDict (<["name" := "SQL"]> ∅)];
     rd_languages := None;
     rd_hobbies := None |}.

Definition sample_job_row : JobData :=
  {| jd_id := 7; jd_title := "Python Developer"; jd_category := "IT";
     jd_description := Some "We need python and SQL skills"; jd_summary := None;
     jd_location := "Manila"; jd_work_type := "full-time";
     jd_work_arrangement := "onsite"; jd_experience_level := "entry-level";
     jd_min_salary := None; jd_max_salary := None;
     jd_company_name := "ACME"; jd_application_count := 3 |}.

Definition sample_sql : SqlServer :=
  {| select_user_profile := fun user_id =>
       Rows (if (user_id =? 1)%Z then Some sample_profile_row else None);
     select_user_resume := fun user_id _ =>
       Rows (if (user_id =? 1)%Z then Some sample_resume else None);
     select_active_jobs := fun _ => Rows [sample_job_row];
     select_job_categories := Rows [("BSIT", "IT")];
     select_popular_jobs := fun _ => Rows [7%Z] |}.

(** the recommendations of user 1 on [sample_sql], and the engine afterwards *)
Definition sample_run : list RecommendationScore.t * Engine.t :=
  match get_recommendations sample_libs Config.defaults sample_sql sample_engine 1 10 true with
  | (Returned recs, e') => (recs, e')
  | (Raised _, e') => ([], e')
  end.

(** a sentence model whose two encodings point slightly apart: cosine -0.05 *)
Definition diverging_model : SentenceModel := fun _ _ => Some (- (5 # 100))%Q.

Definition diverging_engine : Engine.t :=
  Engine.mk true (Some diverging_model) None ∅ (<["BSIT" := ["IT"]]> ∅) [7%Z].

(** The values the similarity backend can hand to the knowledge scorer are
    non-negative: those of the sentence model, those already cached, and those
    of the TF-IDF vectoriser. *)
Definition similarity_nonneg (e : Engine.t) (cache : gmap string Q) : Prop :=
  (forall m a b s, Engine.sentence_model e = Some m -> m a b = Some s -> (0 <= s)%Q)
  /\ (forall k s, cache !! k = Some s -> (0 <= s)%Q)
  /\ (forall v a b s, Engine.tfidf_vectorizer e = Some v -> v a b = Some s -> (0 <= s)%Q).

Definition sub_weights_nonneg (cfg : Config.t) : Prop :=
  (0 <= Config.SKILLS_WEIGHT cfg)%Q /\ (0 <= Config.EDUCATION_WEIGHT cfg)%Q
  /\ (0 <= Config.EXPERIENCE_WEIGHT cfg)%Q /\ (0 <= Config.COURSE_WEIGHT cfg)%Q
  /\ (0 <= Config.LOCATION_WEIGHT cfg)%Q.



(** a server on which every read about a user raises *)
Definition failing_sql : SqlServer :=
  {| select_user_profile := fun _ => Raises;
     select_user_resume := fun _ _ => Raises;
     select_active_jobs := fun _ => Rows [sample_job_row];
     select_job_categories := Rows [("BSIT", "IT")];
     select_popular_jobs := fun _ => Rows [7%Z] |}.

(** [sample_sql] with a failing resume read *)
Definition failing_resume_sql : SqlServer :=
  {| select_user_profile := select_user_profile sample_sql;
     select_user_resume := fun _ _ => Raises;
     select_active_jobs := select_active_jobs sample_sql;
     select_job_categories := select_job_categories sample_sql;
     select_popular_jobs := select_popular_jobs sample_sql |}.

(** a candidate for job 7, in the category "IT" *)
Definition it_candidate : RecommendationScore.t :=
  RecommendationScore.mk 7 (84 # 100) (3 # 14) (46 # 100) 1 []
    "Python Developer" "IT" "ACME".

(** [cache_extends cap c c']: the similarity cache [c'] keeps every entry of
    [c] and holds no more entries than the larger of [c]'s size and the
    capacity. *)
Definition cache_extends (cap : Z) (c c' : gmap string Q) : Prop :=
  c ⊆ c' /\ (size c' <= Nat.max (size c) (Z.to_nat cap))%nat.

(** the number of work-experience entries [_calculate_experience_match] counts *)
Definition experience_count (user_profile : UserProfile.t) : nat :=
  match UserProfile.work_experience user_profile with
  | Some w => length w
  | None => 0
  end.

(** a course qualifies for a category when the course-category mapping lists
    the category under the course's name *)
Definition course_qualifies (e : Engine.t) (job_category : string)
    (course : string * string) : Prop :=
  exists categories,
    Engine.job_categories_mapping e !! fst course = Some categories
    /\ job_category ∈ categories.

(** [sample_user] with two jobs on the resume *)
Definition experienced_user : UserProfile.t :=
  UserProfile.mk 1 "Ana" "Cruz" "alumni" [("BSIT", "graduated")] None true
    true (Some ["Python"; "SQL"]) (Some [ItemOther; ItemOther]) None
    (Some "python developer") (Some []) None.

(** the string has no comma *)
Fixpoint comma_free (s : string) : bool :=
  match s with
  | EmptyString => true
  | String c r => negb (Ascii.eqb c ",") && comma_free r
  end.

(** a name that [GROUP_CONCAT] and [split(',')] carry over unchanged: not
    empty and without a comma *)
Definition plain_name (s : string) : Prop :=
  comma_free s = true /\ s <> "".

(** [sample_sql] with a failing categories query *)
Definition failing_categories_sql : SqlServer :=
  {| select_user_profile := select_user_profile sample_sql;
     select_user_resume := select_user_resume sample_sql;
     select_active_jobs := select_active_jobs sample_sql;
     select_job_categories := Raises;
     select_popular_jobs := select_popular_jobs sample_sql |}.

(** *** Introspection *)

(** The feature list [_set_algorithm_features] stores in the engine. *)
Definition _set_algorithm_features (cfg : Config.t) (e : Engine.t) : list string :=
  let features_used :=
    ["content_based_filtering"; "skill_matching"; "education_matching";
     "experience_matching"; "course_category_mapping"] in
  let features_used :=
    match Engine.sentence_model e, Engine.tfidf_vectorizer e with
    | Some _, _ => features_used ++ ["semantic_similarity_bert"]
    | None, Some _ => features_used ++ ["tfidf_similarity"]
    | None, None => features_used
    end in
  let features_used :=
    if Config.ENABLE_POPULARITY_BOOST cfg
    then features_used ++ ["popularity_boost"] else features_used in
  if Config.ENABLE_DIVERSITY_BOOST cfg
  then features_used ++ ["diversity_boost"] else features_used.

(** The dictionary [get_user_profile_debug] returns for a known user. *)
Record ProfileDebug := {
  dbg_user_id : Z;
  dbg_name : string;
  dbg_student_type : string;
  dbg_courses : list (string * string);
  dbg_profile_completed : bool;
  dbg_has_completed_resume : bool;
  dbg_skills_count : nat;
  dbg_work_experience_count : nat;
  dbg_education_count : nat
}.

(** [len(x) if x else 0] *)
Definition len_or_0 {A} (x : option (list A)) : nat :=
  match x with
  | Some l => length l
  | None => 0
  end.

(** [inl] carries the value of the ["error"] key. *)
Definition get_user_profile_debug (sql : SqlServer) (user_id : Z)
  : string + ProfileDebug :=
  match _build_user_profile sql user_id with
  | None => inl "User profile not found"
  | Some user_profile =>
      inr {| dbg_user_id := UserProfile.user_id user_profile;
             dbg_name := UserProfile.first_name user_profile +:+ " "
                         +:+ UserProfile.last_name user_profile;
             dbg_student_type := UserProfile.student_type user_profile;
             dbg_courses := UserProfile.courses user_profile;
             dbg_profile_completed := UserProfile.profile_completed user_profile;
             dbg_has_completed_resume := UserProfile.has_completed_resume user_profile;
             dbg_skills_count := len_or_0 (UserProfile.skills user_profile);
             dbg_work_experience_count := len_or_0 (UserProfile.work_experience user_profile);
             dbg_education_count := len_or_0 (UserProfile.education user_profile) |}
  end.

(** a server whose jobs query raises *)
Definition failing_jobs_sql : SqlServer :=
  {| select_user_profile := select_user_profile sample_sql;
     select_user_resume := select_user_resume sample_sql;
     select_active_jobs := fun _ => Raises;
     select_job_categories := select_job_categories sample_sql;
     select_popular_jobs := select_popular_jobs sample_sql |}.

(** * Properties *)

(** ** Arithmetic lemmas *)

Lemma Qltb_true (a b : Q) : Qltb a b = true <-> (a < b)%Q.
Proof.
  unfold Qltb. rewrite negb_true_iff.
  destruct (Qle_bool b a) eqn:E; split; intros H; try discriminate.
  - apply Qle_bool_iff in E. lra.
  - destruct (Qlt_le_dec a b) as [L | L]; [exact L |].
    apply Qle_bool_iff in L. congruence.
  - reflexivity.
Qed.

Lemma Qltb_false (a b : Q) : Qltb a b = false <-> (b <= a)%Q.
Proof.
  unfold Qltb. rewrite negb_false_iff. apply Qle_bool_iff.
Qed.

Lemma py_min_cases (a b : Q) :
  ((b < a)%Q /\ py_min a b = b) \/ ((a <= b)%Q /\ py_min a b = a).
Proof.
  unfold py_min. destruct (Qltb b a) eqn:E.
  - left. split; [by apply Qltb_true | done].
  - right. split; [by apply Qltb_false | done].
Qed.

Lemma py_max_cases (a b : Q) :
  ((a < b)%Q /\ py_max a b = b) \/ ((b <= a)%Q /\ py_max a b = a).
Proof.
  unfold py_max. destruct (Qltb a b) eqn:E.
  - left. split; [by apply Qltb_true | done].
  - right. split; [by apply Qltb_false | done].
Qed.

Lemma inject_nat_nonneg (n : nat) : (0 <= inject_Z (Z.of_nat n))%Q.
Proof. change 0%Q with (inject_Z 0). rewrite <- Zle_Qle. lia. Qed.

Lemma inject_nat_pos (n : nat) : (0 < n)%nat -> (0 < inject_Z (Z.of_nat n))%Q.
Proof. intros H. change 0%Q with (inject_Z 0). rewrite <- Zlt_Qlt. lia. Qed.

Lemma inject_nat_le (a b : nat) :
  (a <= b)%nat -> (inject_Z (Z.of_nat a) <= inject_Z (Z.of_nat b))%Q.
Proof. intros H. rewrite <- Zle_Qle. lia. Qed.

Lemma ratio_nonneg (a b : nat) : (0 <= ratio a b)%Q.
Proof.
  unfold ratio. destruct b as [| b].
  - simpl. unfold Qdiv. rewrite Qmult_0_r. lra.
  - apply Qle_shift_div_l; [apply inject_nat_pos; lia |].
    rewrite Qmult_0_l. apply inject_nat_nonneg.
Qed.

Lemma ratio_le_1 (a b : nat) : (a <= b)%nat -> (ratio a b <= 1)%Q.
Proof.
  intros H. unfold ratio. destruct b as [| b].
  - simpl. unfold Qdiv. rewrite Qmult_0_r. lra.
  - apply Qle_shift_div_r; [apply inject_nat_pos; lia |].
    rewrite Qmult_1_l. by apply inject_nat_le.
Qed.


Lemma ratio_mono_l (a b n : nat) : (a <= b)%nat -> (ratio a n <= ratio b n)%Q.
Proof.
  intros H. unfold ratio, Qdiv.
  apply Qmult_le_compat_r; [by apply inject_nat_le |].
  apply Qinv_le_0_compat, inject_nat_nonneg.
Qed.

(** ** Text lemmas *)







(** ** Word-overlap similarity *)






(** ** Skills sub-score *)


Lemma count_skills_foldl (job_text : string) (skills : list string) (n : nat) :
  foldl (fun n skill => if skill_matches job_text skill then S n else n) n skills
  = (n + length (filter (fun skill => skill_matches job_text skill = true) skills))%nat.
Proof.
  revert n. induction skills as [| s skills IH]; intros n; simpl; [lia |].
  rewrite IH. rewrite filter_cons.
  destruct (skill_matches job_text s) eqn:E.
  - rewrite decide_True by done. simpl. lia.
  - rewrite decide_False by congruence. lia.
Qed.







(** ** Knowledge scorer: the resume gate *)

(** C3: without a completed resume the knowledge scorer returns score 0 and
    exactly the one reason "Complete your resume for better job matching",
    whatever the job, the engine's models and the cache (which it leaves
    untouched). *)
Theorem knowledge_score_resume_gate (lib : Libs) (cfg : Config.t) (e : Engine.t)
    (cache : gmap string Q) (user_profile : UserProfile.t) (job_profile : JobProfile.t) :
  UserProfile.has_completed_resume user_profile = false ->
  _calculate_knowledge_score lib cfg e cache user_profile job_profile
  = ((0%Q, ["Complete your resume for better job matching"]), cache).
Proof.
  intros H. unfold _calculate_knowledge_score. by rewrite H.
Qed.

Lemma knowledge_score_resume_gate_witness :
  _calculate_knowledge_score sample_libs Config.defaults sample_engine ∅
    sample_user_no_resume sample_job
  = ((0%Q, ["Complete your resume for better job matching"]), ∅).
Proof.
  apply (knowledge_score_resume_gate sample_libs Config.defaults sample_engine ∅
           sample_user_no_resume sample_job).
  reflexivity.
Defined.

(** ** Hybrid composer *)

Lemma score_job_Some (lib : Libs) (cfg : Config.t) (e : Engine.t)
    (cache cache' : gmap string Q) (u : UserProfile.t) (inc : bool)
    (j : JobProfile.t) (rec : RecommendationScore.t) :
  score_job lib cfg e cache u inc j = (Some rec, cache') ->
  RecommendationScore.job_id rec = JobProfile.job_id j
  /\ RecommendationScore.content_score rec = fst (_calculate_content_score cfg e u j)
  /\ RecommendationScore.knowledge_score rec
     = fst (fst (_calculate_knowledge_score lib cfg e cache u j))
  /\ RecommendationScore.hybrid_score rec
     = (Config.CONTENT_WEIGHT cfg * RecommendationScore.content_score rec
        + Config.KNOWLEDGE_WEIGHT cfg * RecommendationScore.knowledge_score rec)%Q
  /\ (Config.MIN_RECOMMENDATION_SCORE cfg <= RecommendationScore.hybrid_score rec)%Q
  /\ (inc = false -> RecommendationScore.reasons rec = []).
Proof.
  unfold score_job.
  destruct (_calculate_content_score cfg e u j) as [cs cr].
  destruct (_calculate_knowledge_score lib cfg e cache u j) as [[ks kr] c2].
  simpl.
  destruct (Qle_bool _ _) eqn:T; [| discriminate].
  intros [= <- <-]. simpl. apply Qle_bool_iff in T.
  repeat split; try done. by intros ->.
Qed.

(** Every candidate the scoring loop keeps was produced by [score_job] on
    one of the jobs, at the cache state the loop had reached. *)
Lemma hybrid_recommendations_inv (lib : Libs) (cfg : Config.t) (e : Engine.t)
    (u : UserProfile.t) (inc : bool) (jobs : list JobProfile.t)
    (cache : gmap string Q) (rec : RecommendationScore.t) :
  In rec (fst (_calculate_hybrid_recommendations lib cfg e cache u jobs inc)) ->
  exists j c c', In j jobs /\ score_job lib cfg e c u inc j = (Some rec, c').
Proof.
  revert cache. induction jobs as [| j jobs IH]; intros cache; simpl; [done |].
  destruct (score_job lib cfg e cache u inc j) as [cand c1] eqn:S.
  destruct (_calculate_hybrid_recommendations lib cfg e c1 u jobs inc)
    as [recs c2] eqn:R.
  simpl. intros Hin.
  assert (In rec recs -> exists j0 c c', In j0 (j :: jobs)
            /\ score_job lib cfg e c u inc j0 = (Some rec, c')) as Rest.
  { intros Hr. specialize (IH c1). rewrite R in IH.
    destruct (IH Hr) as (j0 & c & c' & Hj & Hs). exists j0, c, c'. simpl. auto. }
  destruct cand as [r |]; [| by apply Rest].
  destruct Hin as [<- | Hr]; [| by apply Rest].
  exists j, cache, c1. simpl. auto.
Qed.

(** C4: every candidate leaving the scoring loop, that is before any boost,
    carries the content and knowledge scores computed for its job and a
    hybrid score equal to CONTENT_WEIGHT * content_score + KNOWLEDGE_WEIGHT *
    knowledge_score. *)
Theorem hybrid_score_is_weighted_sum (lib : Libs) (cfg : Config.t) (e : Engine.t)
    (cache : gmap string Q) (user_profile : UserProfile.t)
    (job_profiles : list JobProfile.t) (include_reasons : bool)
    (rec : RecommendationScore.t) :
  In rec (fst (_calculate_hybrid_recommendations lib cfg e cache user_profile
                 job_profiles include_reasons)) ->
  exists job_profile c,
    In job_profile job_profiles
    /\ RecommendationScore.job_id rec = JobProfile.job_id job_profile
    /\ RecommendationScore.content_score rec
       = fst (_calculate_content_score cfg e user_profile job_profile)
    /\ RecommendationScore.knowledge_score rec
       = fst (fst (_calculate_knowledge_score lib cfg e c user_profile job_profile))
    /\ RecommendationScore.hybrid_score rec
       = (Config.CONTENT_WEIGHT cfg * RecommendationScore.content_score rec
          + Config.KNOWLEDGE_WEIGHT cfg * RecommendationScore.knowledge_score rec)%Q.
Proof.
  intros Hin.
  destruct (hybrid_recommendations_inv _ _ _ _ _ _ _ _ Hin) as (j & c & c' & Hj & Hs).
  destruct (score_job_Some _ _ _ _ _ _ _ _ _ Hs) as (H1 & H2 & H3 & H4 & _).
  exists j, c. auto.
Qed.

Lemma sample_candidates :
  fst (_calculate_hybrid_recommendations sample_libs Config.defaults sample_engine ∅
         sample_user [sample_job] true)
  = [sample_candidate].
Proof. vm_compute. reflexivity. Qed.

Lemma hybrid_score_is_weighted_sum_witness :
  exists job_profile c,
    In job_profile [sample_job]
    /\ RecommendationScore.job_id sample_candidate = JobProfile.job_id job_profile
    /\ RecommendationScore.content_score sample_candidate
       = fst (_calculate_content_score Config.defaults sample_engine sample_user job_profile)
    /\ RecommendationScore.knowledge_score sample_candidate
       = fst (fst (_calculate_knowledge_score sample_libs Config.defaults sample_engine c
                     sample_user job_profile))
    /\ RecommendationScore.hybrid_score sample_candidate
       = (Config.CONTENT_WEIGHT Config.defaults
          * RecommendationScore.content_score sample_candidate
          + Config.KNOWLEDGE_WEIGHT Config.defaults
            * RecommendationScore.knowledge_score sample_candidate)%Q.
Proof.
  apply (hybrid_score_is_weighted_sum sample_libs Config.defaults sample_engine ∅
           sample_user [sample_job] true sample_candidate).
  vm_compute. left. reflexivity.
Defined.

(** ** Post-processor: popularity boost *)

Lemma index_of_None (x : Z) (xs : list Z) :
  index_of x xs = None <-> ~ In x xs.
Proof.
  induction xs as [| y ys IH]; simpl; [tauto |].
  destruct (Z.eqb_spec y x) as [-> | Hne].
  - split; [done | intros H; exfalso; apply H; by left].
  - destruct (index_of x ys); simpl.
    + split; [done |]. intros H.
      assert (~ In x ys) as N by (intros I; apply H; by right).
      by apply IH in N.
    + split; [| done]. intros _ [E | I]; [done | by apply IH].
Qed.

(** [index_of] is the first position holding the element. *)
Lemma index_of_Some (x : Z) (xs : list Z) (i : nat) :
  index_of x xs = Some i <->
  xs !! i = Some x /\ forall k, (k < i)%nat -> xs !! k <> Some x.
Proof.
  revert i. induction xs as [| y ys IH]; intros i; simpl.
  - split; [done | intros [H _]; done].
  - destruct (Z.eqb_spec y x) as [-> | Hne].
    + split.
      * intros [= <-]. split; [done | lia].
      * intros [H F]. destruct i as [| i]; [done |].
        destruct (F 0%nat); [lia | done].
    + destruct (index_of x ys) as [i' |]; simpl.
      * split.
        -- intros [= <-]. destruct (IH i') as [[H F] _]; [done |]. split; [done |].
           intros [| k] Hk; simpl; [congruence | apply F; lia].
        -- intros [H F]. destruct i as [| i]; simpl in H; [congruence |].
           f_equal. assert (Some i' = Some i) as C; [| congruence].
           apply IH. split; [done |]. intros k Hk. apply (F (S k)). lia.
      * split; [done |]. intros [H F]. destruct i as [| i]; simpl in H; [congruence |].
        assert (None = Some i) as C; [| congruence].
        apply IH. split; [done |]. intros k Hk. apply (F (S k)). lia.
Qed.

Lemma index_of_lt (x : Z) (xs : list Z) (i : nat) :
  index_of x xs = Some i -> (i < length xs)%nat.
Proof.
  intros H. apply index_of_Some in H as [H _]. by apply lookup_lt_Some in H.
Qed.

Lemma rank_boost_antitone (i j len : nat) :
  (i <= j)%nat -> (rank_boost j len <= rank_boost i len)%Q.
Proof.
  intros H. unfold rank_boost. pose proof (ratio_mono_l i j len H). lra.
Qed.

Lemma rank_boost_range (i len : nat) :
  (i <= len)%nat -> (0 <= rank_boost i len <= 1 # 10)%Q.
Proof.
  intros H. unfold rank_boost.
  pose proof (ratio_nonneg i len). pose proof (ratio_le_1 i len H). lra.
Qed.

Lemma boost_popular_hybrid (popular_jobs : list Z) (rec : RecommendationScore.t) :
  RecommendationScore.hybrid_score (boost_popular popular_jobs rec)
  = match popularity_boost popular_jobs (RecommendationScore.job_id rec) with
    | Some boost => py_min 1 (RecommendationScore.hybrid_score rec + boost)
    | None => RecommendationScore.hybrid_score rec
    end.
Proof.
  unfold boost_popular.
  destruct (popularity_boost _ _) as [b |]; [| done]. by destruct (Qltb _ b).
Qed.

Lemma apply_popularity_boost_enabled (cfg : Config.t) (e : Engine.t)
    (recs : list RecommendationScore.t) :
  Config.ENABLE_POPULARITY_BOOST cfg = true ->
  apply_popularity_boost cfg e recs = map (boost_popular (Engine.popular_jobs e)) recs.
Proof.
  intros H. unfold apply_popularity_boost. rewrite H.
  destruct (Engine.popular_jobs e) as [| p ps]; [| done].
  induction recs as [| r recs IH]; [done |]. simpl. by rewrite <- IH.
Qed.

(** C6: with the popularity boost enabled, the recommendation at any position
    of the candidate list leaves the popularity loop as follows.  If its job
    is at [rank_index] in the popular-jobs list ([popular_jobs.index]), its
    hybrid score becomes min(1, score + 0.1 * (1 - rank_index / len)); if its
    job is not in the list, the recommendation is unchanged (boost 0).  The
    boost 0.1 * (1 - rank_index / len) never increases with [rank_index]. *)
Theorem popularity_boost_by_rank (cfg : Config.t) (e : Engine.t)
    (recommendations : list RecommendationScore.t) (k : nat)
    (rec : RecommendationScore.t) :
  Config.ENABLE_POPULARITY_BOOST cfg = true ->
  recommendations !! k = Some rec ->
  let popular_jobs := Engine.popular_jobs e in
  exists rec',
    apply_popularity_boost cfg e recommendations !! k = Some rec'
    /\ (forall rank_index,
          index_of (RecommendationScore.job_id rec) popular_jobs = Some rank_index ->
          (RecommendationScore.hybrid_score rec'
           == py_min 1 (RecommendationScore.hybrid_score rec
                        + (1 # 10) * (1 - ratio rank_index (length popular_jobs))))%Q)
    /\ (~ In (RecommendationScore.job_id rec) popular_jobs -> rec' = rec)
    /\ (forall i j : nat, (i <= j)%nat ->
          ((1 # 10) * (1 - ratio j (length popular_jobs))
           <= (1 # 10) * (1 - ratio i (length popular_jobs)))%Q).
Proof.
  intros En Hk popular_jobs. exists (boost_popular popular_jobs rec).
  split; [| split; [| split]].
  - rewrite (apply_popularity_boost_enabled _ _ _ En).
    change (map ?f ?l) with (f <$> l). by rewrite list_lookup_fmap, Hk.
  - intros i Hi. rewrite boost_popular_hybrid. unfold popularity_boost.
    rewrite Hi. reflexivity.
  - intros Hn. apply index_of_None in Hn. unfold boost_popular, popularity_boost.
    by rewrite Hn.
  - intros i j Hij. apply (rank_boost_antitone i j _ Hij).
Qed.

Lemma popularity_boost_by_rank_witness :
  exists rec',
    apply_popularity_boost Config.defaults two_popular_engine
      [sample_candidate; other_candidate] !! 1%nat = Some rec'
    /\ (RecommendationScore.hybrid_score rec'
        == py_min 1 (RecommendationScore.hybrid_score other_candidate
                     + (1 # 10) * (1 - ratio 1 2)))%Q.
Proof.
  destruct (popularity_boost_by_rank Config.defaults two_popular_engine
              [sample_candidate; other_candidate] 1 other_candidate)
    as (rec' & Hk & Hb & _); [reflexivity | reflexivity |].
  exists rec'. split; [exact Hk |]. apply (Hb 1%nat). reflexivity.
Defined.

(** ** The pipeline after the scoring loop *)

Lemma py_min_1_le (h : Q) : (py_min 1 h <= h)%Q.
Proof. destruct (py_min_cases 1 h) as [[? ->] | [? ->]]; lra. Qed.

Lemma py_min_1_mono (a b : Q) : (a <= b)%Q -> (py_min 1 a <= py_min 1 b)%Q.
Proof.
  intros H.
  destruct (py_min_cases 1 a) as [[? ->] | [? ->]];
    destruct (py_min_cases 1 b) as [[? ->] | [? ->]]; lra.
Qed.

Lemma boosted_refl (r : RecommendationScore.t) : boosted r r.
Proof. unfold boosted. pose proof (py_min_1_le (RecommendationScore.hybrid_score r)). auto. Qed.

Lemma boosted_trans (a b c : RecommendationScore.t) :
  boosted a b -> boosted b c -> boosted a c.
Proof.
  intros (A1 & A2 & A3 & A4) (B1 & B2 & B3 & B4). unfold boosted.
  repeat split; try congruence.
  destruct (py_min_cases 1 (RecommendationScore.hybrid_score a)) as [[? Ea] | [? Ea]];
    destruct (py_min_cases 1 (RecommendationScore.hybrid_score b)) as [[? Eb] | [? Eb]];
    rewrite Ea in *; rewrite Eb in *; lra.
Qed.

Lemma boosted_raise (r : RecommendationScore.t) (b : Q) :
  (0 <= b)%Q ->
  boosted r (RecommendationScore.with_hybrid_score
               (py_min 1 (RecommendationScore.hybrid_score r + b)) r).
Proof.
  intros Hb. unfold boosted. simpl. repeat split.
  apply py_min_1_mono. lra.
Qed.

Lemma boost_popular_boosted (popular_jobs : list Z) (r : RecommendationScore.t) :
  boosted r (boost_popular popular_jobs r).
Proof.
  unfold boost_popular, popularity_boost.
  destruct (index_of _ _) as [i |] eqn:E; [| apply boosted_refl].
  pose proof (rank_boost_range i (length popular_jobs)) as [Hb _].
  { apply index_of_lt in E. lia. }
  pose proof (boosted_raise r _ Hb) as B.
  destruct (Qltb _ _); [| exact B].
  destruct B as (B1 & B2 & B3 & B4). unfold boosted. simpl in *. auto.
Qed.

Lemma Forall2_map_pointwise {A} (R : A -> A -> Prop) (f : A -> A) (l : list A) :
  (forall x, R x (f x)) -> Forall2 R l (map f l).
Proof. intros H. induction l; simpl; constructor; auto. Qed.

Lemma Forall2_boosted_refl (l : list RecommendationScore.t) : Forall2 boosted l l.
Proof. induction l; constructor; auto using boosted_refl. Qed.

Lemma Forall2_boosted_trans (l1 l2 l3 : list RecommendationScore.t) :
  Forall2 boosted l1 l2 -> Forall2 boosted l2 l3 -> Forall2 boosted l1 l3.
Proof.
  intros H. revert l3. induction H as [| a b l1 l2 Hab _ IH]; intros l3 H3.
  - inversion H3. constructor.
  - inversion H3 as [| b' c l2' l3' Hbc Hrest]; subst.
    constructor; [by eapply boosted_trans | by apply IH].
Qed.

Lemma apply_popularity_boost_boosted (cfg : Config.t) (e : Engine.t)
    (recs : list RecommendationScore.t) :
  Forall2 boosted recs (apply_popularity_boost cfg e recs).
Proof.
  unfold apply_popularity_boost.
  destruct (Engine.popular_jobs e) as [| p ps]; [apply Forall2_boosted_refl |].
  destruct (Config.ENABLE_POPULARITY_BOOST cfg); [| apply Forall2_boosted_refl].
  apply Forall2_map_pointwise. intros r. apply boost_popular_boosted.
Qed.

Lemma apply_diversity_boost_boosted (recs : list RecommendationScore.t) :
  Forall2 boosted recs (_apply_diversity_boost recs).
Proof.
  unfold _apply_diversity_boost. apply Forall2_map_pointwise. intros r.
  destruct (_ =? _)%nat; [| apply boosted_refl].
  apply boosted_raise. lra.
Qed.

Lemma apply_post_processing_boosted (cfg : Config.t) (e : Engine.t)
    (recs : list RecommendationScore.t) :
  Forall2 boosted recs (_apply_post_processing cfg e recs).
Proof.
  unfold _apply_post_processing.
  pose proof (apply_popularity_boost_boosted cfg e recs) as P.
  destruct (Config.ENABLE_DIVERSITY_BOOST cfg); [| exact P].
  eapply Forall2_boosted_trans; [exact P | apply apply_diversity_boost_boosted].
Qed.

Lemma insert_desc_In (r x : RecommendationScore.t) (l : list RecommendationScore.t) :
  In x (insert_desc r l) <-> x = r \/ In x l.
Proof.
  induction l as [| s l IH]; simpl; [firstorder |].
  destruct (Qltb _ _); simpl; [rewrite IH |]; firstorder.
Qed.

Lemma sort_desc_In (x : RecommendationScore.t) (l : list RecommendationScore.t) :
  In x (sort_desc l) <-> In x l.
Proof.
  unfold sort_desc. induction l as [| r l IH]; simpl; [tauto |].
  rewrite insert_desc_In, IH. firstorder.
Qed.

Lemma firstn_In {A} (n : nat) (x : A) (l : list A) : In x (firstn n l) -> In x l.
Proof.
  revert l. induction n as [| n IH]; intros [| y l]; simpl; try done.
  intros [-> | H]; auto.
Qed.

Lemma py_take_In {A} (k : Z) (x : A) (l : list A) : In x (py_take k l) -> In x l.
Proof.
  unfold py_take. destruct (0 <=? k)%Z; apply firstn_In.
Qed.

Lemma Forall2_In_r {A B} (R : A -> B -> Prop) (l : list A) (k : list B) (y : B) :
  Forall2 R l k -> In y k -> exists x, In x l /\ R x y.
Proof.
  induction 1 as [| a b l k Hab _ IH]; simpl; [done |].
  intros [<- | Hy]; [exists a; auto |].
  destruct (IH Hy) as (x & Hx & Hr). exists x. auto.
Qed.

(** What [get_recommendations] returns on success. *)
Lemma get_recommendations_returned (lib : Libs) (cfg : Config.t) (sql : SqlServer)
    (e e' : Engine.t) (user_id limit : Z) (inc : bool)
    (recs : list RecommendationScore.t) :
  get_recommendations lib cfg sql e user_id limit inc = (Returned recs, e') ->
  forall rec, In rec recs ->
    In rec (_apply_post_processing cfg e (candidate_set lib cfg sql e user_id inc)).
Proof.
  unfold get_recommendations, candidate_set.
  destruct (is_ready e); cbn [negb]; [| discriminate].
  destruct (_build_user_profile sql user_id) as [u |]; [| discriminate].
  destruct (DatabaseManager.get_active_jobs sql _) as [| j0 jobs] eqn:J.
  { intros H rec Hin. inversion H; subst. destruct Hin. }
  destruct (_calculate_hybrid_recommendations _ _ _ _ _ _ _) as [cands c] eqn:C.
  intros H rec Hin. inversion H; subst. cbn [fst].
  apply py_take_In in Hin. exact (proj1 (sort_desc_In _ _) Hin).
Qed.

Lemma candidate_set_threshold (lib : Libs) (cfg : Config.t) (sql : SqlServer)
    (e : Engine.t) (user_id : Z) (inc : bool) (cand : RecommendationScore.t) :
  In cand (candidate_set lib cfg sql e user_id inc) ->
  RecommendationScore.hybrid_score cand
  = (Config.CONTENT_WEIGHT cfg * RecommendationScore.content_score cand
     + Config.KNOWLEDGE_WEIGHT cfg * RecommendationScore.knowledge_score cand)%Q
  /\ (Config.MIN_RECOMMENDATION_SCORE cfg <= RecommendationScore.hybrid_score cand)%Q
  /\ (inc = false -> RecommendationScore.reasons cand = []).
Proof.
  unfold candidate_set.
  destruct (_build_user_profile sql user_id) as [u |]; [| done].
  intros Hin.
  destruct (hybrid_recommendations_inv _ _ _ _ _ _ _ _ Hin) as (j & c & c' & _ & Hs).
  destruct (score_job_Some _ _ _ _ _ _ _ _ _ Hs) as (_ & _ & _ & H4 & H5 & H6). auto.
Qed.

(** C2: when [get_recommendations] returns, post-processing has turned the
    threshold-filtered candidate list, element by element, into boosted
    versions of the same candidates (same job, same content and knowledge
    scores, hybrid score not lowered below the cap), adding and dropping
    none; every returned recommendation is one of these, so it stems from a
    candidate whose pre-boost hybrid score CONTENT_WEIGHT * content_score +
    KNOWLEDGE_WEIGHT * knowledge_score is at least MIN_RECOMMENDATION_SCORE. *)
Theorem threshold_filter_precedes_boosts (lib : Libs) (cfg : Config.t)
    (sql : SqlServer) (e e' : Engine.t) (user_id limit : Z)
    (include_reasons : bool) (recs : list RecommendationScore.t) :
  get_recommendations lib cfg sql e user_id limit include_reasons
  = (Returned recs, e') ->
  let candidates := candidate_set lib cfg sql e user_id include_reasons in
  Forall2 boosted candidates (_apply_post_processing cfg e candidates)
  /\ forall rec, In rec recs ->
       In rec (_apply_post_processing cfg e candidates)
       /\ (Config.MIN_RECOMMENDATION_SCORE cfg
           <= Config.CONTENT_WEIGHT cfg * RecommendationScore.content_score rec
              + Config.KNOWLEDGE_WEIGHT cfg * RecommendationScore.knowledge_score rec)%Q
       /\ exists cand,
            In cand candidates /\ boosted cand rec
            /\ (Config.MIN_RECOMMENDATION_SCORE cfg
                <= RecommendationScore.hybrid_score cand)%Q.
Proof.
  intros Hret candidates.
  pose proof (apply_post_processing_boosted cfg e candidates) as B.
  split; [exact B |]. intros rec Hin.
  pose proof (get_recommendations_returned _ _ _ _ _ _ _ _ _ Hret rec Hin) as Hpost.
  split; [exact Hpost |].
  destruct (Forall2_In_r _ _ _ _ B Hpost) as (cand & Hc & Hb).
  destruct (candidate_set_threshold _ _ _ _ _ _ _ Hc) as (Hh & Hm & _).
  split; [| exists cand; auto].
  destruct Hb as (_ & -> & -> & _). by rewrite <- Hh.
Qed.

Lemma threshold_filter_precedes_boosts_witness :
  exists rec,
    fst sample_run = [rec]
    /\ (Config.MIN_RECOMMENDATION_SCORE Config.defaults
        <= Config.CONTENT_WEIGHT Config.defaults * RecommendationScore.content_score rec
           + Config.KNOWLEDGE_WEIGHT Config.defaults * RecommendationScore.knowledge_score rec)%Q.
Proof.
  destruct (threshold_filter_precedes_boosts sample_libs Config.defaults sample_sql
              sample_engine (snd sample_run) 1 10 true (fst sample_run))
    as [_ H]; [vm_compute; reflexivity |].
  destruct (fst sample_run) as [| rec rest] eqn:E; [vm_compute in E; discriminate |].
  destruct rest; [| vm_compute in E; discriminate].
  exists rec. split; [reflexivity |]. apply H. by left.
Defined.

(** ** Ranges of the component scores *)

Lemma skills_match_range (user_skills : list string) (job_profile : JobProfile.t) :
  (0 <= _calculate_skills_match user_skills job_profile <= 1)%Q.
Proof.
  unfold _calculate_skills_match. destruct user_skills as [| s rest]; [lra |].
  rewrite count_skills_foldl. simpl (0 + _)%nat. split.
  - apply ratio_nonneg.
  - apply ratio_le_1. apply length_filter.
Qed.

Lemma experience_modifier_range (level : string) :
  (2 # 10 <= default (5 # 10) (experience_education_map !! level) <= 8 # 10)%Q.
Proof.
  unfold experience_education_map.
  repeat (rewrite lookup_insert; case_decide; [simpl; lra |]).
  rewrite lookup_empty. simpl. lra.
Qed.

Lemma education_match_range (u : UserProfile.t) (j : JobProfile.t) :
  (0 < _calculate_education_match u j <= 1)%Q.
Proof.
  unfold _calculate_education_match.
  pose proof (experience_modifier_range (JobProfile.experience_level j)) as [L U].
  destruct (String.eqb _ _); nra.
Qed.

Lemma experience_match_range (u : UserProfile.t) (j : JobProfile.t) :
  (0 < _calculate_experience_match u j <= 1)%Q.
Proof.
  unfold _calculate_experience_match.
  repeat match goal with |- context [if ?b then _ else _] => destruct b end; lra.
Qed.

Lemma course_match_range (e : Engine.t) (courses : list (string * string))
    (category : string) :
  (0 <= _calculate_course_match e courses category <= 1)%Q.
Proof.
  unfold _calculate_course_match.
  assert (forall acc : Q, (0 <= acc <= 1)%Q ->
    (0 <= foldl (fun max_score course =>
             let '(course_name, graduation_status) := course in
             match Engine.job_categories_mapping e !! course_name with
             | Some categories =>
                 if bool_decide (category ∈ categories) then
                   let score :=
                     if String.eqb graduation_status "graduated" then 1%Q else 8 # 10 in
                   py_max max_score score
                 else max_score
             | None => max_score
             end) acc courses <= 1)%Q) as G.
  { induction courses as [| [c g] courses IH]; intros acc Hacc; simpl; [done |].
    apply IH.
    destruct (Engine.job_categories_mapping e !! c); [| done].
    destruct (bool_decide _); [| done].
    destruct (String.eqb g "graduated");
      match goal with |- context [py_max ?a ?b] =>
        destruct (py_max_cases a b) as [[? ->] | [? ->]] end; lra. }
  destruct courses as [| c0 rest]; [lra |]. apply G. lra.
Qed.

(** The content score before its cap, as the sum the code accumulates. *)
Lemma content_score_sum (cfg : Config.t) (e : Engine.t) (u : UserProfile.t)
    (j : JobProfile.t) :
  exists skills_part : Q,
    (0 <= skills_part <= 1)%Q
    /\ (fst (_calculate_content_score cfg e u j)
       = py_min 1 (0 + Config.SKILLS_WEIGHT cfg * skills_part
                   + Config.EDUCATION_WEIGHT cfg * _calculate_education_match u j
                   + Config.EXPERIENCE_WEIGHT cfg * _calculate_experience_match u j
                   + Config.COURSE_WEIGHT cfg
                     * _calculate_course_match e (UserProfile.courses u)
                                               (JobProfile.category j)
                   + Config.LOCATION_WEIGHT cfg * (5 # 10))%Q
         \/ fst (_calculate_content_score cfg e u j)
            = py_min 1 (0 + Config.EDUCATION_WEIGHT cfg * _calculate_education_match u j
                        + Config.EXPERIENCE_WEIGHT cfg * _calculate_experience_match u j
                        + Config.COURSE_WEIGHT cfg
                          * _calculate_course_match e (UserProfile.courses u)
                                                    (JobProfile.category j)
                        + Config.LOCATION_WEIGHT cfg * (5 # 10))%Q).
Proof.
  unfold _calculate_content_score.
  destruct (UserProfile.skills u) as [[| s rest] |].
  - exists 0%Q. split; [lra |]. right. reflexivity.
  - exists (_calculate_skills_match (s :: rest) j).
    split; [apply skills_match_range |]. left. reflexivity.
  - exists 0%Q. split; [lra |]. right. reflexivity.
Qed.

Lemma content_score_range (cfg : Config.t) (e : Engine.t) (u : UserProfile.t)
    (j : JobProfile.t) :
  sub_weights_nonneg cfg ->
  (0 <= fst (_calculate_content_score cfg e u j) <= 1)%Q.
Proof.
  intros (Hs & Hed & Hex & Hc & Hl).
  destruct (content_score_sum cfg e u j) as (sp & Hsp & Hsum).
  pose proof (education_match_range u j) as Hedu.
  pose proof (experience_match_range u j) as Hexp.
  pose proof (course_match_range e (UserProfile.courses u) (JobProfile.category j)) as Hco.
  assert (0 <= Config.SKILLS_WEIGHT cfg * sp)%Q by (apply Qmult_le_0_compat; lra).
  assert (0 <= Config.EDUCATION_WEIGHT cfg * _calculate_education_match u j)%Q
    by (apply Qmult_le_0_compat; lra).
  assert (0 <= Config.EXPERIENCE_WEIGHT cfg * _calculate_experience_match u j)%Q
    by (apply Qmult_le_0_compat; lra).
  assert (0 <= Config.COURSE_WEIGHT cfg
               * _calculate_course_match e (UserProfile.courses u) (JobProfile.category j))%Q
    by (apply Qmult_le_0_compat; lra).
  destruct Hsum as [-> | ->];
    match goal with |- context [py_min ?a ?b] =>
      destruct (py_min_cases a b) as [[? ->] | [? ->]] end; lra.
Qed.


Lemma simple_similarity_range (a b : string) :
  (0 <= _calculate_simple_text_similarity a b <= 1)%Q.
Proof.
  unfold _calculate_simple_text_similarity.
  destruct (_ || _); [lra |]. destruct (bool_decide _); [lra |].
  split; [apply ratio_nonneg |]. apply ratio_le_1.
  apply subseteq_size. set_solver.
Qed.

Lemma similarity_backend_nonneg (lib : Libs) (cfg : Config.t) (e : Engine.t)
    (cache : gmap string Q) (a b : string) :
  similarity_nonneg e cache ->
  (0 <= fst (similarity_backend lib cfg e cache a b))%Q.
Proof.
  intros (Hm & Hc & Hv). unfold similarity_backend.
  destruct (Engine.sentence_model e) as [m |] eqn:M.
  - unfold _calculate_semantic_similarity_bert.
    destruct (cache !! _) as [s |] eqn:C; simpl; [by eapply Hc |].
    destruct (m a b) as [s |] eqn:S; simpl; [by eapply Hm | lra].
  - destruct (Engine.tfidf_vectorizer e) as [v |] eqn:V;
      [destruct (SKLEARN_AVAILABLE lib) |]; simpl;
      try apply simple_similarity_range.
    unfold _calculate_tfidf_similarity.
    destruct (v a b) as [s |] eqn:S; [by eapply Hv | lra].
Qed.

(** The knowledge score is the backend's similarity capped at 1, or 0. *)
Lemma knowledge_score_cases (lib : Libs) (cfg : Config.t) (e : Engine.t)
    (cache : gmap string Q) (u : UserProfile.t) (j : JobProfile.t) :
  fst (fst (_calculate_knowledge_score lib cfg e cache u j)) = 0%Q
  \/ fst (fst (_calculate_knowledge_score lib cfg e cache u j))
     = py_min 1 (fst (similarity_backend lib cfg e cache
                        (_create_user_text u) (_create_job_text j))).
Proof.
  unfold _calculate_knowledge_score.
  destruct (negb _); [by left |]. destruct (_ || _); [by left |].
  destruct (similarity_backend _ _ _ _ _ _) as [s c]. by right.
Qed.

Lemma py_min_1_cap (s : Q) : (py_min 1 s <= 1)%Q.
Proof. destruct (py_min_cases 1 s) as [[? ->] | [? ->]]; lra. Qed.

Lemma py_min_1_nonneg (s : Q) : (0 <= s)%Q -> (0 <= py_min 1 s)%Q.
Proof. intros H. destruct (py_min_cases 1 s) as [[? ->] | [? ->]]; lra. Qed.

(** C1, the claim as stated fails: with a sentence model loaded, a cosine
    similarity of -0.05 reaches the knowledge score unchanged, and the
    recommendation returned for the pair carries it. *)
Lemma knowledge_score_below_zero :
  ~ (0 <= fst (fst (_calculate_knowledge_score sample_libs Config.defaults
                      diverging_engine ∅ sample_user sample_job)))%Q
  /\ exists rec,
       fst (get_recommendations sample_libs Config.defaults sample_sql
              diverging_engine 1 10 true) = Returned [rec]
       /\ (RecommendationScore.knowledge_score rec < 0)%Q.
Proof.
  split.
  - vm_compute. intros H. by apply H.
  - eexists. split; [vm_compute; reflexivity |]. reflexivity.
Qed.

(** C1 (amended): for non-negative content sub-weights the content score is
    in [0,1].  The knowledge score is at most 1; it is at least 0 when no
    model is loaded (word-overlap path) and, more generally, whenever the
    values of the similarity backend are non-negative: the embedding path
    caps the cosine similarity at 1 but does not raise a negative one to 0.
    When the knowledge score is non-negative and the hybrid weights are
    non-negative with sum at most 1, the pre-boost hybrid score is in [0,1]. *)
Theorem component_scores_ranges (lib : Libs) (cfg : Config.t) (e : Engine.t)
    (cache : gmap string Q) (user_profile : UserProfile.t) (job_profile : JobProfile.t) :
  sub_weights_nonneg cfg ->
  let content_score := fst (_calculate_content_score cfg e user_profile job_profile) in
  let knowledge_score :=
    fst (fst (_calculate_knowledge_score lib cfg e cache user_profile job_profile)) in
  (0 <= content_score <= 1)%Q
  /\ (knowledge_score <= 1)%Q
  /\ (Engine.sentence_model e = None -> Engine.tfidf_vectorizer e = None ->
      (0 <= knowledge_score)%Q)
  /\ (similarity_nonneg e cache -> (0 <= knowledge_score)%Q)
  /\ ((0 <= knowledge_score)%Q ->
      (0 <= Config.CONTENT_WEIGHT cfg)%Q -> (0 <= Config.KNOWLEDGE_WEIGHT cfg)%Q ->
      (Config.CONTENT_WEIGHT cfg + Config.KNOWLEDGE_WEIGHT cfg <= 1)%Q ->
      (0 <= Config.CONTENT_WEIGHT cfg * content_score
            + Config.KNOWLEDGE_WEIGHT cfg * knowledge_score <= 1)%Q).
Proof.
  intros Hw content_score knowledge_score.
  pose proof (content_score_range cfg e user_profile job_profile Hw) as Hc.
  fold content_score in Hc.
  assert (knowledge_score <= 1)%Q as Hk1.
  { subst knowledge_score.
    destruct (knowledge_score_cases lib cfg e cache user_profile job_profile)
      as [-> | ->]; [lra | apply py_min_1_cap]. }
  split; [exact Hc |]. split; [exact Hk1 |]. split; [| split].
  - intros Hm Hv. subst knowledge_score.
    destruct (knowledge_score_cases lib cfg e cache user_profile job_profile)
      as [-> | ->]; [lra |].
    apply py_min_1_nonneg. unfold similarity_backend. rewrite Hm, Hv. simpl.
    apply simple_similarity_range.
  - intros Hn. subst knowledge_score.
    destruct (knowledge_score_cases lib cfg e cache user_profile job_profile)
      as [-> | ->]; [lra |].
    by apply py_min_1_nonneg, similarity_backend_nonneg.
  - intros Hk0 Hcw Hkw Hsum. nra.
Qed.

Lemma defaults_sub_weights_nonneg : sub_weights_nonneg Config.defaults.
Proof. unfold sub_weights_nonneg. simpl. repeat split; lra. Qed.

Lemma component_scores_ranges_witness :
  (0 <= fst (_calculate_content_score Config.defaults sample_engine sample_user sample_job)
   <= 1)%Q
  /\ (0 <= fst (fst (_calculate_knowledge_score sample_libs Config.defaults sample_engine ∅
                       sample_user sample_job)) <= 1)%Q.
Proof.
  destruct (component_scores_ranges sample_libs Config.defaults sample_engine ∅
              sample_user sample_job defaults_sub_weights_nonneg)
    as (Hc & Hk1 & Hk0 & _).
  split; [exact Hc |]. split; [apply Hk0; reflexivity | exact Hk1].
Defined.

(** ** The floor of the content score *)





(** ** Reasons and the [include_reasons] flag *)

Lemma sample_engine_initialized :
  initialize sample_libs Config.defaults sample_sql Engine.new = sample_engine.
Proof. reflexivity. Qed.

(** Before post-processing the flag is honoured: without it, every candidate
    has an empty reasons list. *)
Lemma candidates_without_reasons (lib : Libs) (cfg : Config.t) (sql : SqlServer)
    (e : Engine.t) (user_id : Z) (cand : RecommendationScore.t) :
  In cand (candidate_set lib cfg sql e user_id false) ->
  RecommendationScore.reasons cand = [].
Proof.
  intros Hin. destruct (candidate_set_threshold _ _ _ _ _ _ _ Hin) as (_ & _ & H).
  by apply H.
Qed.

(** C7, the code at the failing input: on the freshly initialised sample
    engine, whose popular-jobs list is [7], user 1 asks for recommendations
    with include_reasons = False; the one recommendation returned, for job 7,
    carries the reason "Popular job opportunity" added by post-processing. *)
Theorem popular_reason_ignores_include_reasons :
  exists rec,
    fst (get_recommendations sample_libs Config.defaults sample_sql
           (initialize sample_libs Config.defaults sample_sql Engine.new)
           1 10 false)
    = Returned [rec]
    /\ RecommendationScore.job_id rec = 7%Z
    /\ RecommendationScore.reasons rec = ["Popular job opportunity"].
Proof.
  eexists. split; [vm_compute; reflexivity |]. split; reflexivity.
Qed.

(** ** Unknown user and data-access failures *)

Lemma get_user_profile_None (sql : SqlServer) (user_id : Z) :
  DatabaseManager.get_user_profile sql user_id = None <->
  select_user_profile sql user_id = Rows None \/ select_user_profile sql user_id = Raises.
Proof.
  unfold DatabaseManager.get_user_profile.
  destruct (select_user_profile sql user_id) as [[row |] |].
  - split; [done | intros [H | H]; discriminate].
  - split; auto.
  - split; auto.
Qed.

Lemma build_user_profile_None (sql : SqlServer) (user_id : Z) :
  _build_user_profile sql user_id = None <->
  DatabaseManager.get_user_profile sql user_id = None.
Proof.
  unfold _build_user_profile.
  destruct (DatabaseManager.get_user_profile sql user_id); split; done.
Qed.

Lemma get_recommendations_outcome (lib : Libs) (cfg : Config.t) (sql : SqlServer)
    (e : Engine.t) (user_id limit : Z) (inc : bool) :
  is_ready e = true ->
  match _build_user_profile sql user_id with
  | None =>
      fst (get_recommendations lib cfg sql e user_id limit inc)
      = Raised (no_profile_found user_id)
  | Some _ =>
      exists recs,
        fst (get_recommendations lib cfg sql e user_id limit inc) = Returned recs
  end.
Proof.
  intros R. unfold get_recommendations. rewrite R. cbn [negb].
  destruct (_build_user_profile sql user_id) as [u |]; [| done].
  destruct (DatabaseManager.get_active_jobs sql _) as [| j0 jobs]; [by eexists |].
  destruct (_calculate_hybrid_recommendations _ _ _ _ _ _ _) as [cands c].
  by eexists.
Qed.

(** C9, the claim as stated fails: the profile read of user 1 raises (a
    data-access failure), and the caller receives the "No profile found"
    error of an unknown user, reported by the API as a 400. *)
Lemma profile_read_failure_is_unknown_user :
  select_user_profile failing_sql 1 = Raises
  /\ fst (get_recommendations sample_libs Config.defaults failing_sql sample_engine
            1 10 true)
     = Raised (ValueError "No profile found for user 1")
  /\ recommendations_endpoint sample_libs Config.defaults failing_sql sample_engine
       1 10 true
     = HTTPException 400 "No profile found for user 1".
Proof. repeat split; reflexivity. Qed.

(** C9 (amended): on an initialised engine [get_recommendations] raises the
    "No profile found for user <id>" error exactly when the profile read
    yields no record, which happens both when no profile row exists and when
    the read itself fails; the API reports either as a 400 with that
    message.  When a profile row exists the call returns a list, also when
    the resume read fails: the failure is absorbed and the user is scored as
    having no completed resume. *)
Theorem no_profile_found_iff_no_record (lib : Libs) (cfg : Config.t)
    (sql : SqlServer) (e : Engine.t) (user_id limit : Z) (include_reasons : bool) :
  is_ready e = true ->
  let outcome := fst (get_recommendations lib cfg sql e user_id limit include_reasons) in
  (outcome = Raised (ValueError ("No profile found for user " +:+ pretty user_id))
   <-> (select_user_profile sql user_id = Rows None
        \/ select_user_profile sql user_id = Raises))
  /\ (outcome = Raised (ValueError ("No profile found for user " +:+ pretty user_id)) ->
      recommendations_endpoint lib cfg sql e user_id limit include_reasons
      = HTTPException 400 ("No profile found for user " +:+ pretty user_id))
  /\ (forall row, select_user_profile sql user_id = Rows (Some row) ->
      (exists recs, outcome = Returned recs)
      /\ (select_user_resume sql user_id true = Raises ->
          exists user_profile,
            _build_user_profile sql user_id = Some user_profile
            /\ UserProfile.has_completed_resume user_profile = false)).
Proof.
  intros R outcome.
  pose proof (get_recommendations_outcome lib cfg sql e user_id limit include_reasons R) as O.
  fold outcome in O.
  split; [| split].
  - rewrite <- get_user_profile_None, <- build_user_profile_None.
    destruct (_build_user_profile sql user_id) as [u |].
    + destruct O as [recs ->]. split; discriminate.
    + split; [done | intros _; exact O].
  - intros H. unfold recommendations_endpoint. fold outcome. by rewrite H.
  - intros row Hrow. split.
    + destruct (_build_user_profile sql user_id) as [u |] eqn:B; [exact O |].
      apply build_user_profile_None, get_user_profile_None in B.
      destruct B; congruence.
    + intros Hres. unfold _build_user_profile, DatabaseManager.get_user_profile,
        DatabaseManager.get_user_resume. rewrite Hrow, Hres. by eexists.
Qed.

Lemma no_profile_found_iff_no_record_witness :
  fst (get_recommendations sample_libs Config.defaults sample_sql sample_engine 2 10 true)
  = Raised (ValueError "No profile found for user 2")
  /\ (exists recs,
        fst (get_recommendations sample_libs Config.defaults failing_resume_sql
               sample_engine 1 10 true) = Returned recs).
Proof.
  split.
  - apply (no_profile_found_iff_no_record sample_libs Config.defaults sample_sql
             sample_engine 2 10 true); [reflexivity |].
    left. reflexivity.
  - destruct (no_profile_found_iff_no_record sample_libs Config.defaults
                failing_resume_sql sample_engine 1 10 true) as (_ & _ & H);
      [reflexivity |].
    destruct (H sample_profile_row) as [Hr _]; [reflexivity | exact Hr].
Defined.

(** ** Worked examples *)

Example default_weights_validate :
  Config.validate_weights Config.defaults = true
  /\ Config.validate_hybrid_weights Config.defaults = true.
Proof. split; reflexivity. Qed.

(** skills 2/2, education 0.8 * 0.8, experience 0.9, course 1.0, location 0.5:
    0.30 + 0.16 + 0.18 + 0.15 + 0.05 *)
Example content_score_sample :
  (fst (_calculate_content_score Config.defaults sample_engine sample_user sample_job)
   == 84 # 100)%Q
  /\ snd (_calculate_content_score Config.defaults sample_engine sample_user sample_job)
     = ["Skills match: Python, SQL";
        "Education level matches entry-level requirements";
        "Experience level aligns with entry-level role";
        "Your course background fits IT field"].
Proof. split; reflexivity. Qed.

(** 5 user words, 12 job words, 3 shared *)
Example knowledge_score_sample :
  fst (_calculate_knowledge_score sample_libs Config.defaults sample_engine ∅
         sample_user sample_job)
  = (3 # 14, []).
Proof. reflexivity. Qed.

Example findall_words_sample :
  Text.findall_words (Text.lower "Hello, World_1  foo-bar!")
  = ["hello"; "world_1"; "foo"; "bar"].
Proof. reflexivity. Qed.

Example build_user_profile_sample :
  _build_user_profile sample_sql 1 = Some sample_user.
Proof. reflexivity. Qed.

(** the second of two equal scores stays second; a negative limit drops from
    the end *)
Example sort_and_slice_sample :
  map RecommendationScore.job_id
      (sort_desc [other_candidate;
                  RecommendationScore.with_hybrid_score (9 # 10) sample_candidate;
                  RecommendationScore.with_hybrid_score (5 # 10) sample_candidate])
  = [7%Z; 9%Z; 7%Z]
  /\ py_take 2 [1%Z; 2%Z; 3%Z] = [1%Z; 2%Z]
  /\ py_take (-1) [1%Z; 2%Z; 3%Z] = [1%Z; 2%Z].
Proof. repeat split; reflexivity. Qed.

(** * Further properties of the engine *)

(** ** Diversity boost *)

Lemma count_categories_from (recs : list RecommendationScore.t)
    (m : gmap string nat) (c : string) :
  default 0%nat
    (foldl (fun category_counts rec =>
              let c := RecommendationScore.job_category rec in
              <[c := S (default 0%nat (category_counts !! c))]> category_counts)
           m recs !! c)
  = (default 0%nat (m !! c)
     + length (filter (fun r => RecommendationScore.job_category r = c) recs))%nat.
Proof.
  revert m. induction recs as [| r recs IH]; intros m; simpl; [lia |].
  rewrite IH, filter_cons.
  destruct (decide (RecommendationScore.job_category r = c)) as [-> | Hne].
  - rewrite lookup_insert_eq. simpl. lia.
  - rewrite lookup_insert_ne by done. lia.
Qed.

Lemma count_categories_lookup (recs : list RecommendationScore.t) (c : string) :
  default 0%nat (count_categories recs !! c)
  = length (filter (fun r => RecommendationScore.job_category r = c) recs).
Proof.
  unfold count_categories. rewrite count_categories_from, lookup_empty. reflexivity.
Qed.

Lemma filter_length_pos {A} (P : A -> Prop) `{forall x, Decision (P x)}
    (l : list A) (k : nat) (x : A) :
  l !! k = Some x -> P x -> (1 <= length (filter P l))%nat.
Proof.
  revert k. induction l as [| a l IH]; intros k Hk Px; [done |].
  rewrite filter_cons. destruct k as [| k]; simpl in Hk.
  - injection Hk as ->. rewrite decide_True by done. simpl. lia.
  - specialize (IH k Hk Px). destruct (decide (P a)); simpl; lia.
Qed.

Lemma filter_length_unique {A} (P : A -> Prop) `{forall x, Decision (P x)}
    (l : list A) (k : nat) (x : A) :
  l !! k = Some x -> P x ->
  (length (filter P l) = 1%nat
   <-> forall k' y, l !! k' = Some y -> P y -> k' = k).
Proof.
  revert k. induction l as [| a l IH]; intros k Hk Px; [done |].
  rewrite filter_cons. destruct k as [| k]; simpl in Hk.
  - injection Hk as ->. rewrite decide_True by done. simpl. split.
    + intros Hlen [| k'] y Hy Py; [done |]. simpl in Hy.
      pose proof (filter_length_pos P l k' y Hy Py). lia.
    + intros Hu. f_equal.
      destruct (filter P l) as [| y ys] eqn:E; [done |].
      assert (y ∈ filter P l) as Hy by (rewrite E; left).
      apply list_elem_of_filter in Hy as [Py Hin].
      apply list_elem_of_lookup in Hin as [k' Hk'].
      specialize (Hu (S k') y Hk' Py). lia.
  - specialize (IH k Hk Px). destruct (decide (P a)) as [Pa | Na]; simpl.
    + pose proof (filter_length_pos P l k x Hk Px). split; [lia |].
      intros Hu. specialize (Hu 0%nat a eq_refl Pa). lia.
    + rewrite IH. split.
      * intros Hu [| k'] y Hy Py; simpl in Hy; [congruence |].
        f_equal. by eapply Hu.
      * intros Hu k' y Hy Py. specialize (Hu (S k') y Hy Py). lia.
Qed.

(** X1: the diversity boost raises the hybrid score of a recommendation to
    min(1, score + 0.05) exactly when no other recommendation of the batch
    has its job category; every other field, and every recommendation whose
    category is shared, is left as it is. *)
Theorem diversity_boost_iff_unique_category
    (recommendations : list RecommendationScore.t) (k : nat)
    (rec : RecommendationScore.t) :
  recommendations !! k = Some rec ->
  let unique :=
    forall k' other,
      recommendations !! k' = Some other ->
      RecommendationScore.job_category other = RecommendationScore.job_category rec ->
      k' = k in
  (unique ->
   _apply_diversity_boost recommendations !! k
   = Some (RecommendationScore.with_hybrid_score
             (py_min 1 (RecommendationScore.hybrid_score rec + (5 # 100))) rec))
  /\ (~ unique -> _apply_diversity_boost recommendations !! k = Some rec).
Proof.
  intros Hk unique. unfold _apply_diversity_boost.
  change (map ?f ?l) with (f <$> l). rewrite list_lookup_fmap, Hk. simpl.
  rewrite count_categories_lookup.
  pose proof (filter_length_unique
                (fun r => RecommendationScore.job_category r
                          = RecommendationScore.job_category rec)
                recommendations k rec Hk eq_refl) as U.
  destruct (Nat.eqb_spec
              (length (filter (fun r => RecommendationScore.job_category r
                                        = RecommendationScore.job_category rec)
                              recommendations)) 1) as [E | N].
  - split; [done |]. intros Hn. destruct Hn. exact (proj1 U E).
  - split; [| done]. intros Hu. destruct N. exact (proj2 U Hu).
Qed.

Lemma diversity_boost_iff_unique_category_witness :
  _apply_diversity_boost [it_candidate; other_candidate; it_candidate] !! 1%nat
  = Some (RecommendationScore.with_hybrid_score
            (py_min 1 (RecommendationScore.hybrid_score other_candidate + (5 # 100)))
            other_candidate)
  /\ _apply_diversity_boost [it_candidate; other_candidate; it_candidate] !! 0%nat
     = Some it_candidate.
Proof.
  split.
  - apply (diversity_boost_iff_unique_category
             [it_candidate; other_candidate; it_candidate] 1 other_candidate);
      [reflexivity |].
    intros [| [| [| k']]] other Hk Hc; simpl in Hk; try reflexivity;
      try discriminate; injection Hk as <-; discriminate.
  - apply (diversity_boost_iff_unique_category
             [it_candidate; other_candidate; it_candidate] 0 it_candidate);
      [reflexivity |].
    intros Hu. specialize (Hu 2%nat it_candidate eq_refl eq_refl). discriminate.
Defined.

(** ** Confidence *)

(** X2: the confidence of a recommendation lies in [0.5, 1], and it is 1
    exactly when the user's profile and resume are both completed: every
    other combination stays at or below 0.9. *)
Theorem confidence_range (user_profile : UserProfile.t)
    (content_score knowledge_score : Q) :
  let confidence := _calculate_confidence user_profile content_score knowledge_score in
  (5 # 10 <= confidence <= 1)%Q
  /\ (if UserProfile.profile_completed user_profile
         && UserProfile.has_completed_resume user_profile
      then (confidence == 1)%Q
      else (confidence <= 9 # 10)%Q).
Proof.
  unfold _calculate_confidence.
  destruct (UserProfile.profile_completed user_profile),
    (UserProfile.has_completed_resume user_profile), (Qltb _ (2 # 10)); simpl;
    match goal with |- context [py_min ?a ?b] =>
      destruct (py_min_cases a b) as [[? ->] | [? ->]] end; lra.
Qed.

(** ** Popularity boost: the reason and the size of the raise *)

Lemma rank_boost_above_half (i n : nat) :
  (i < n)%nat ->
  (Qltb (5 # 100) (rank_boost i n) = true <-> (2 * i < n)%nat).
Proof.
  intros Hin. rewrite Qltb_true. unfold rank_boost, ratio.
  pose proof (inject_nat_pos n ltac:(lia)) as Hn.
  assert (inject_Z (Z.of_nat i) / inject_Z (Z.of_nat n) * inject_Z (Z.of_nat n)
          == inject_Z (Z.of_nat i))%Q as Hdiv.
  { rewrite Qmult_comm. apply Qmult_div_r. lra. }
  set (q := (inject_Z (Z.of_nat i) / inject_Z (Z.of_nat n))%Q) in *.
  set (I := inject_Z (Z.of_nat i)) in *. set (N := inject_Z (Z.of_nat n)) in *.
  assert ((2 * i < n)%nat <-> (2 * I < N)%Q) as ->.
  { subst I N. rewrite <- (inject_Z_mult 2 (Z.of_nat i)) at 1.
    rewrite <- Zlt_Qlt. lia. }
  split; intros H; nra.
Qed.

(** X14: the popularity loop appends the reason "Popular job opportunity"
    exactly to the recommendations whose job sits in the first half of the
    popular-jobs list (twice its index is below the length of the list); it
    changes no other reason. *)
Theorem popular_reason_iff_top_half (popular_jobs : list Z)
    (rec : RecommendationScore.t) :
  RecommendationScore.reasons (boost_popular popular_jobs rec)
  = match index_of (RecommendationScore.job_id rec) popular_jobs with
    | Some rank_index =>
        if (2 * rank_index <? length popular_jobs)%nat
        then RecommendationScore.reasons rec ++ ["Popular job opportunity"]
        else RecommendationScore.reasons rec
    | None => RecommendationScore.reasons rec
    end.
Proof.
  unfold boost_popular, popularity_boost.
  destruct (index_of _ _) as [i |] eqn:E; [| done].
  pose proof (rank_boost_above_half i (length popular_jobs) (index_of_lt _ _ _ E)) as B.
  destruct (Qltb (5 # 100) (rank_boost i (length popular_jobs))) eqn:T.
  - rewrite (proj2 (Nat.ltb_lt _ _)); [done |]. by apply B.
  - destruct (Nat.ltb_spec (2 * i) (length popular_jobs)) as [L | L]; [| done].
    apply B in L. congruence.
Qed.

Lemma boost_popular_raise (popular_jobs : list Z) (r : RecommendationScore.t) :
  (RecommendationScore.hybrid_score (boost_popular popular_jobs r)
   <= RecommendationScore.hybrid_score r + (1 # 10))%Q
  /\ ((RecommendationScore.hybrid_score r <= 1)%Q ->
      (RecommendationScore.hybrid_score (boost_popular popular_jobs r) <= 1)%Q).
Proof.
  rewrite boost_popular_hybrid. unfold popularity_boost.
  destruct (index_of _ _) as [i |] eqn:E; [| split; [lra | done]].
  pose proof (rank_boost_range i (length popular_jobs)) as [L U].
  { apply index_of_lt in E. lia. }
  match goal with |- context [py_min ?a ?b] =>
    destruct (py_min_cases a b) as [[? ->] | [? ->]] end; split; intros; lra.
Qed.

(** X19: post-processing raises a hybrid score by at most 0.15 (0.1 for
    popularity, 0.05 for diversity) and never lifts a score that was at most 1
    above 1; it keeps the length and the order of the candidate list. *)
Theorem post_processing_raise_bounded (cfg : Config.t) (e : Engine.t)
    (recommendations : list RecommendationScore.t) :
  Forall2 (fun cand rec =>
             (RecommendationScore.hybrid_score rec
              <= RecommendationScore.hybrid_score cand + (15 # 100))%Q
             /\ ((RecommendationScore.hybrid_score cand <= 1)%Q ->
                 (RecommendationScore.hybrid_score rec <= 1)%Q))
          recommendations (_apply_post_processing cfg e recommendations).
Proof.
  unfold _apply_post_processing.
  assert (Forall2 (fun cand rec =>
             (RecommendationScore.hybrid_score rec
              <= RecommendationScore.hybrid_score cand + (1 # 10))%Q
             /\ ((RecommendationScore.hybrid_score cand <= 1)%Q ->
                 (RecommendationScore.hybrid_score rec <= 1)%Q))
            recommendations (apply_popularity_boost cfg e recommendations)) as P.
  { unfold apply_popularity_boost.
    assert (Forall2 (fun cand rec =>
             (RecommendationScore.hybrid_score rec
              <= RecommendationScore.hybrid_score cand + (1 # 10))%Q
             /\ ((RecommendationScore.hybrid_score cand <= 1)%Q ->
                 (RecommendationScore.hybrid_score rec <= 1)%Q))
            recommendations recommendations) as Id.
    { induction recommendations; constructor; [split; [lra | done] | done]. }
    destruct (Engine.popular_jobs e) as [| p ps]; [exact Id |].
    destruct (Config.ENABLE_POPULARITY_BOOST cfg); [| exact Id].
    apply Forall2_map_pointwise. intros r. apply boost_popular_raise. }
  destruct (Config.ENABLE_DIVERSITY_BOOST cfg).
  - unfold _apply_diversity_boost.
    set (counts := count_categories (apply_popularity_boost cfg e recommendations)).
    clearbody counts.
    induction P as [| c r cs rs [H1 H2] _ IH]; simpl; constructor; [| exact IH].
    destruct (_ =? _)%nat; simpl.
    + match goal with |- context [py_min ?a ?b] =>
        destruct (py_min_cases a b) as [[? ->] | [? ->]] end; split; intros; lra.
    + split; [lra | done].
  - eapply Forall2_impl; [exact P |]. intros c r [H1 H2]. split; [lra | done].
Qed.

(** ** Sorting and truncation *)

Lemma insert_desc_perm (r : RecommendationScore.t) (l : list RecommendationScore.t) :
  insert_desc r l ≡ₚ r :: l.
Proof.
  induction l as [| s l IH]; simpl; [done |].
  destruct (Qltb _ _); [| done]. rewrite IH. apply perm_swap.
Qed.

Lemma sort_desc_perm (l : list RecommendationScore.t) : sort_desc l ≡ₚ l.
Proof.
  unfold sort_desc. induction l as [| r l IH]; simpl; [done |].
  by rewrite insert_desc_perm, IH.
Qed.

Lemma insert_desc_sorted (r : RecommendationScore.t) (l : list RecommendationScore.t) :
  StronglySorted (fun a b => (RecommendationScore.hybrid_score b
                              <= RecommendationScore.hybrid_score a)%Q) l ->
  StronglySorted (fun a b => (RecommendationScore.hybrid_score b
                              <= RecommendationScore.hybrid_score a)%Q)
                 (insert_desc r l).
Proof.
  induction 1 as [| s l Hs IH Hall]; simpl; [repeat constructor |].
  destruct (Qltb _ _) eqn:T.
  - apply Qltb_true in T. constructor; [exact IH |].
    rewrite insert_desc_perm. constructor; [lra | exact Hall].
  - apply Qltb_false in T. constructor; [by constructor |].
    constructor; [exact T |].
    eapply Forall_impl; [exact Hall |]. simpl. intros x Hx. lra.
Qed.

Lemma sort_desc_sorted (l : list RecommendationScore.t) :
  StronglySorted (fun a b => (RecommendationScore.hybrid_score b
                              <= RecommendationScore.hybrid_score a)%Q)
                 (sort_desc l).
Proof.
  unfold sort_desc. induction l as [| r l IH]; simpl; [constructor |].
  by apply insert_desc_sorted.
Qed.

Lemma insert_desc_filter_eq (q : Q) (r : RecommendationScore.t)
    (l : list RecommendationScore.t) :
  List.filter (fun x => Qeq_bool (RecommendationScore.hybrid_score x) q) (insert_desc r l)
  = List.filter (fun x => Qeq_bool (RecommendationScore.hybrid_score x) q) (r :: l).
Proof.
  induction l as [| s l IH]; [done |]. cbn [insert_desc].
  destruct (Qltb _ _) eqn:T; [| done].
  apply Qltb_true in T.
  cbn [List.filter] in *. rewrite IH.
  destruct (Qeq_bool (RecommendationScore.hybrid_score r) q) eqn:Er;
    destruct (Qeq_bool (RecommendationScore.hybrid_score s) q) eqn:Es; try done.
  apply Qeq_bool_iff in Er, Es. rewrite Er, Es in T. lra.
Qed.

(** X3: the sort of [get_recommendations] returns a permutation of its input
    in non-increasing order of hybrid score, and it is stable: the
    recommendations that share a score keep the order they had. *)
Theorem sort_desc_stable_sort (recommendations : list RecommendationScore.t) (q : Q) :
  sort_desc recommendations ≡ₚ recommendations
  /\ StronglySorted (fun a b => (RecommendationScore.hybrid_score b
                                 <= RecommendationScore.hybrid_score a)%Q)
                    (sort_desc recommendations)
  /\ List.filter (fun x => Qeq_bool (RecommendationScore.hybrid_score x) q)
                 (sort_desc recommendations)
     = List.filter (fun x => Qeq_bool (RecommendationScore.hybrid_score x) q)
                   recommendations.
Proof.
  split; [apply sort_desc_perm |]. split; [apply sort_desc_sorted |].
  unfold sort_desc. induction recommendations as [| r l IH]; [done |].
  cbn [foldr]. rewrite insert_desc_filter_eq. cbn [List.filter]. by rewrite IH.
Qed.

Lemma firstn_sorted {A} (R : A -> A -> Prop) (n : nat) (l : list A) :
  StronglySorted R l -> StronglySorted R (firstn n l).
Proof.
  intros H. revert n. induction H as [| x l Hl IH Hx]; intros [| n]; simpl;
    try constructor; [apply IH |].
  by apply Forall_take.
Qed.

Lemma py_take_sorted {A} (R : A -> A -> Prop) (k : Z) (l : list A) :
  StronglySorted R l -> StronglySorted R (py_take k l).
Proof. intros H. unfold py_take. destruct (0 <=? k)%Z; by apply firstn_sorted. Qed.

Lemma py_take_length {A} (k : Z) (l : list A) :
  (length (py_take k l) <= length l)%nat
  /\ ((0 <= k)%Z -> (length (py_take k l) <= Z.to_nat k)%nat).
Proof.
  unfold py_take. destruct (Z.leb_spec 0 k); rewrite length_firstn; lia.
Qed.

Lemma hybrid_recommendations_length (lib : Libs) (cfg : Config.t) (e : Engine.t)
    (u : UserProfile.t) (inc : bool) (jobs : list JobProfile.t)
    (cache : gmap string Q) :
  (length (fst (_calculate_hybrid_recommendations lib cfg e cache u jobs inc))
   <= length jobs)%nat.
Proof.
  revert cache. induction jobs as [| j jobs IH]; intros cache; simpl; [lia |].
  destruct (score_job lib cfg e cache u inc j) as [cand c1].
  specialize (IH c1).
  destruct (_calculate_hybrid_recommendations lib cfg e c1 u jobs inc) as [recs c2].
  simpl in *. destruct cand; simpl; lia.
Qed.

Lemma post_processing_length (cfg : Config.t) (e : Engine.t)
    (recs : list RecommendationScore.t) :
  length (_apply_post_processing cfg e recs) = length recs.
Proof.
  symmetry. eapply Forall2_length, apply_post_processing_boosted.
Qed.

(** X4: a successful call of [get_recommendations] returns its
    recommendations in non-increasing order of hybrid score, at most one per
    active job read, and at most [limit] of them when [limit] is not
    negative. *)
Theorem get_recommendations_sorted_and_bounded (lib : Libs) (cfg : Config.t)
    (sql : SqlServer) (e e' : Engine.t) (user_id limit : Z)
    (include_reasons : bool) (recs : list RecommendationScore.t) :
  get_recommendations lib cfg sql e user_id limit include_reasons
  = (Returned recs, e') ->
  StronglySorted (fun a b => (RecommendationScore.hybrid_score b
                              <= RecommendationScore.hybrid_score a)%Q) recs
  /\ (length recs
      <= length (DatabaseManager.get_active_jobs sql
                   (Some (Config.MAX_RECOMMENDATIONS cfg))))%nat
  /\ ((0 <= limit)%Z -> (length recs <= Z.to_nat limit)%nat).
Proof.
  unfold get_recommendations.
  destruct (is_ready e); cbn [negb]; [| discriminate].
  destruct (_build_user_profile sql user_id) as [u |]; [| discriminate].
  destruct (DatabaseManager.get_active_jobs sql _) as [| j0 jobs] eqn:J.
  { intros H. inversion H; subst. repeat split; simpl; try lia. constructor. }
  pose proof (hybrid_recommendations_length lib cfg e u include_reasons
                (map (_build_job_profile) (j0 :: jobs)) (Engine.embeddings_cache e)) as L.
  destruct (_calculate_hybrid_recommendations _ _ _ _ _ _ _) as [cands c].
  intros H. inversion H; subst. cbn [fst] in L.
  rewrite length_map in L.
  pose proof (py_take_length limit (sort_desc (_apply_post_processing cfg e cands)))
    as [T1 T2].
  rewrite (Permutation_length (sort_desc_perm _)), post_processing_length in T1.
  split; [apply py_take_sorted, sort_desc_sorted |]. split; [lia | exact T2].
Qed.

Lemma get_recommendations_sorted_and_bounded_witness :
  (length (fst sample_run) <= 1)%nat /\ (length (fst sample_run) <= 10)%nat.
Proof.
  destruct (get_recommendations_sorted_and_bounded sample_libs Config.defaults
              sample_sql sample_engine (snd sample_run) 1 10 true (fst sample_run))
    as (_ & L & K); [vm_compute; reflexivity |].
  split; [exact L | apply K; lia].
Defined.

(** ** The similarity cache *)

Lemma cache_extends_refl (cap : Z) (c : gmap string Q) : cache_extends cap c c.
Proof. split; [done | lia]. Qed.

Lemma cache_extends_trans (cap : Z) (c1 c2 c3 : gmap string Q) :
  cache_extends cap c1 c2 -> cache_extends cap c2 c3 -> cache_extends cap c1 c3.
Proof.
  intros [S1 B1] [S2 B2]. split; [by transitivity c2 | lia].
Qed.

Lemma bert_cache_extends (lib : Libs) (cfg : Config.t) (m : SentenceModel)
    (c : gmap string Q) (a b : string) :
  cache_extends (Config.NLP_CACHE_SIZE cfg) c
    (snd (_calculate_semantic_similarity_bert lib cfg m c a b)).
Proof.
  unfold _calculate_semantic_similarity_bert.
  destruct (c !! _) as [v |] eqn:K; simpl; [apply cache_extends_refl |].
  destruct (m a b) as [s |]; simpl; [| apply cache_extends_refl].
  destruct (Z.ltb_spec (Z.of_nat (size c)) (Config.NLP_CACHE_SIZE cfg));
    [| apply cache_extends_refl].
  split; [by apply insert_subseteq |].
  rewrite map_size_insert_None by done. lia.
Qed.

Lemma knowledge_score_cache_extends (lib : Libs) (cfg : Config.t) (e : Engine.t)
    (c : gmap string Q) (u : UserProfile.t) (j : JobProfile.t) :
  cache_extends (Config.NLP_CACHE_SIZE cfg) c
    (snd (_calculate_knowledge_score lib cfg e c u j)).
Proof.
  unfold _calculate_knowledge_score.
  destruct (negb _); [apply cache_extends_refl |].
  destruct (_ || _); [apply cache_extends_refl |].
  pose proof (bert_cache_extends lib cfg) as B.
  unfold similarity_backend.
  destruct (Engine.sentence_model e) as [m |].
  - specialize (B m c (_create_user_text u) (_create_job_text j)).
    destruct (_calculate_semantic_similarity_bert _ _ _ _ _ _) as [s c']. exact B.
  - destruct (Engine.tfidf_vectorizer e); [destruct (SKLEARN_AVAILABLE lib) |];
      apply cache_extends_refl.
Qed.

Lemma score_job_cache_extends (lib : Libs) (cfg : Config.t) (e : Engine.t)
    (c : gmap string Q) (u : UserProfile.t) (inc : bool) (j : JobProfile.t) :
  cache_extends (Config.NLP_CACHE_SIZE cfg) c (snd (score_job lib cfg e c u inc j)).
Proof.
  unfold score_job.
  destruct (_calculate_content_score cfg e u j) as [cs cr].
  pose proof (knowledge_score_cache_extends lib cfg e c u j) as K.
  destruct (_calculate_knowledge_score lib cfg e c u j) as [[ks kr] c'].
  by destruct (Qle_bool _ _).
Qed.

Lemma hybrid_recommendations_cache_extends (lib : Libs) (cfg : Config.t)
    (e : Engine.t) (u : UserProfile.t) (inc : bool) (jobs : list JobProfile.t)
    (c : gmap string Q) :
  cache_extends (Config.NLP_CACHE_SIZE cfg) c
    (snd (_calculate_hybrid_recommendations lib cfg e c u jobs inc)).
Proof.
  revert c. induction jobs as [| j jobs IH]; intros c; simpl;
    [apply cache_extends_refl |].
  pose proof (score_job_cache_extends lib cfg e c u inc j) as S.
  destruct (score_job lib cfg e c u inc j) as [cand c1].
  specialize (IH c1).
  destruct (_calculate_hybrid_recommendations lib cfg e c1 u jobs inc) as [recs c2].
  simpl in *. by eapply cache_extends_trans.
Qed.

(** X5: whatever [get_recommendations] answers, the engine it leaves behind
    differs from the one it started with in the similarity cache only; the
    cache keeps every entry it had, with its value, and does not grow beyond
    NLP_CACHE_SIZE entries (or beyond its size at the start, if that was
    larger). *)
Theorem get_recommendations_cache_grows_bounded (lib : Libs) (cfg : Config.t)
    (sql : SqlServer) (e : Engine.t) (user_id limit : Z) (include_reasons : bool) :
  let e' := snd (get_recommendations lib cfg sql e user_id limit include_reasons) in
  Engine.embeddings_cache e ⊆ Engine.embeddings_cache e'
  /\ (size (Engine.embeddings_cache e')
      <= Nat.max (size (Engine.embeddings_cache e))
                 (Z.to_nat (Config.NLP_CACHE_SIZE cfg)))%nat
  /\ e' = Engine.with_cache (Engine.embeddings_cache e') e.
Proof.
  assert (forall x : Engine.t, x = Engine.with_cache (Engine.embeddings_cache x) x)
    as Same by (by intros []).
  unfold get_recommendations.
  destruct (negb (is_ready e)); simpl; [split; [done | split; [lia | apply Same]] |].
  destruct (_build_user_profile sql user_id) as [u |]; simpl;
    [| split; [done | split; [lia | apply Same]]].
  destruct (DatabaseManager.get_active_jobs sql _) as [| j0 jobs]; simpl;
    [split; [done | split; [lia | apply Same]] |].
  pose proof (hybrid_recommendations_cache_extends lib cfg e u include_reasons
                (map (_build_job_profile) (j0 :: jobs)) (Engine.embeddings_cache e))
    as [S B].
  destruct (_calculate_hybrid_recommendations lib cfg e (Engine.embeddings_cache e) u
              (map (_build_job_profile) (j0 :: jobs)) include_reasons) as [cands c] eqn:C.
  simpl in C. rewrite C. simpl. auto.
Qed.

(** X6: once a pair of texts is in the cache, or there is room to store it
    and the sentence model answers, asking again for the same pair returns the
    same similarity and leaves the cache alone, whatever the model would now
    answer; when the cache is full, a newly computed similarity is not
    stored. *)
Theorem bert_similarity_cached (lib : Libs) (cfg : Config.t)
    (model model' : SentenceModel) (cache : gmap string Q)
    (user_text job_text : string) (similarity : Q) :
  model user_text job_text = Some similarity ->
  let first := _calculate_semantic_similarity_bert lib cfg model cache user_text job_text in
  let key := md5_hexdigest lib (user_text +:+ "||" +:+ job_text) in
  ((Z.of_nat (size cache) < Config.NLP_CACHE_SIZE cfg)%Z \/ is_Some (cache !! key) ->
   _calculate_semantic_similarity_bert lib cfg model' (snd first) user_text job_text
   = first)
  /\ ((Config.NLP_CACHE_SIZE cfg <= Z.of_nat (size cache))%Z -> cache !! key = None ->
      first = (similarity, cache)).
Proof.
  intros Hm first key. subst first. unfold _calculate_semantic_similarity_bert.
  fold key. split.
  - intros Hroom. destruct (cache !! key) as [v |] eqn:K; simpl.
    + by rewrite K.
    + rewrite Hm. destruct Hroom as [Hroom | [v Hv]]; [| done].
      rewrite (proj2 (Z.ltb_lt _ _) Hroom). simpl. by rewrite lookup_insert_eq.
  - intros Hfull K. rewrite K, Hm.
    by rewrite (proj2 (Z.ltb_ge _ _) Hfull).
Qed.

Lemma bert_similarity_cached_witness :
  _calculate_semantic_similarity_bert sample_libs Config.defaults
    (fun _ _ => None)
    (snd (_calculate_semantic_similarity_bert sample_libs Config.defaults
            diverging_model ∅ "python developer" "java developer"))
    "python developer" "java developer"
  = _calculate_semantic_similarity_bert sample_libs Config.defaults
      diverging_model ∅ "python developer" "java developer".
Proof.
  apply (bert_similarity_cached sample_libs Config.defaults diverging_model
           (fun _ _ => None) ∅ "python developer" "java developer" (- (5 # 100))%Q);
    [reflexivity |].
  left. vm_compute. reflexivity.
Defined.

(** ** Content sub-scores *)

Lemma experience_modifier_entry (level : string) :
  (level = "entry-level"
   /\ default (5 # 10) (experience_education_map !! level) = 8 # 10)
  \/ (level <> "entry-level"
      /\ (default (5 # 10) (experience_education_map !! level) <= 6 # 10)%Q).
Proof.
  unfold experience_education_map. rewrite lookup_insert.
  case_decide as E; [left; by subst |]. right. split; [done |].
  repeat (rewrite lookup_insert; case_decide; [simpl; lra |]).
  rewrite lookup_empty. simpl. lra.
Qed.

(** X7: the education sub-score exceeds 0.5, the threshold of the reason
    "Education level matches ...", exactly for an alumni user and an
    entry-level job, where it is 0.64; for every other pair it is at most
    0.48. *)
Theorem education_reason_iff_alumni_entry_level (user_profile : UserProfile.t)
    (job_profile : JobProfile.t) :
  let education_score := _calculate_education_match user_profile job_profile in
  (Qltb (5 # 10) education_score = true
   <-> UserProfile.student_type user_profile = "alumni"
       /\ JobProfile.experience_level job_profile = "entry-level")
  /\ (if Qltb (5 # 10) education_score
      then (education_score == 64 # 100)%Q
      else (education_score <= 48 # 100)%Q).
Proof.
  unfold _calculate_education_match.
  destruct (experience_modifier_entry (JobProfile.experience_level job_profile))
    as [[El Em] | [El Em]];
    destruct (String.eqb_spec (UserProfile.student_type user_profile) "alumni")
      as [Es | Es].
  - rewrite Em. split; [split; [done | reflexivity] | reflexivity].
  - rewrite Em. split; [split; [discriminate | intros []; done] | simpl; lra].
  - assert (Qltb (5 # 10)
              ((8 # 10) * default (5 # 10)
                 (experience_education_map !! JobProfile.experience_level job_profile))
            = false) as -> by (apply Qltb_false; lra).
    split; [split; [discriminate | intros []; done] | lra].
  - assert (Qltb (5 # 10)
              ((6 # 10) * default (5 # 10)
                 (experience_education_map !! JobProfile.experience_level job_profile))
            = false) as -> by (apply Qltb_false; lra).
    split; [split; [discriminate | intros []; done] | lra].
Qed.

Lemma experience_match_by_count (u : UserProfile.t) (j : JobProfile.t) :
  UserProfile.has_completed_resume u = true ->
  _calculate_experience_match u j
  = let n := experience_count u in
    let level := JobProfile.experience_level j in
    if String.eqb level "entry-level" then 9 # 10
    else if String.eqb level "mid-level" then
      if (1 <=? n)%nat then 8 # 10 else 4 # 10
    else if String.eqb level "senior-level" then
      if (2 <=? n)%nat then 7 # 10 else 3 # 10
    else if (3 <=? n)%nat then 6 # 10 else 2 # 10.
Proof.
  intros H. unfold _calculate_experience_match, experience_count. rewrite H. simpl.
  by destruct (UserProfile.work_experience u) as [[| x w] |].
Qed.

(** X8: for users with a completed resume the experience sub-score never
    decreases when the resume lists more work-experience entries, and an
    entry-level job scores 0.9 whatever the count; a user without a completed
    resume scores 0.3 on every job. *)
Theorem experience_match_monotone (user1 user2 : UserProfile.t)
    (job_profile : JobProfile.t) :
  UserProfile.has_completed_resume user1 = true ->
  UserProfile.has_completed_resume user2 = true ->
  (experience_count user1 <= experience_count user2)%nat ->
  (_calculate_experience_match user1 job_profile
   <= _calculate_experience_match user2 job_profile)%Q
  /\ (JobProfile.experience_level job_profile = "entry-level" ->
      _calculate_experience_match user1 job_profile = 9 # 10)
  /\ (forall user0, UserProfile.has_completed_resume user0 = false ->
      _calculate_experience_match user0 job_profile = 3 # 10).
Proof.
  intros H1 H2 Hle. rewrite !experience_match_by_count by done. cbv zeta.
  split; [| split].
  - repeat match goal with
           | |- context [String.eqb ?a ?b] => destruct (String.eqb a b)
           | |- context [(?a <=? ?b)%nat] => destruct (Nat.leb_spec a b)
           end; first [lra | exfalso; lia].
  - intros ->. reflexivity.
  - intros u0 H0. unfold _calculate_experience_match. by rewrite H0.
Qed.

Lemma experience_match_monotone_witness :
  (_calculate_experience_match sample_user
     (JobProfile.mk 8 "Lead" "IT" "" None "" "" "" "senior-level" None None "" 0)
   <= _calculate_experience_match experienced_user
        (JobProfile.mk 8 "Lead" "IT" "" None "" "" "" "senior-level" None None "" 0))%Q.
Proof.
  apply (experience_match_monotone sample_user experienced_user
           (JobProfile.mk 8 "Lead" "IT" "" None "" "" "" "senior-level" None None "" 0));
    [reflexivity | reflexivity | unfold experience_count; simpl; lia].
Defined.

(** X15: the skills sub-score is the number of skills [_get_matching_skills]
    lists divided by the number of skills, so whenever the sub-score is
    positive, in particular above the 0.5 threshold of the "Skills match"
    reason, the list of matching skills is not empty. *)
Theorem skills_match_counts_matching_skills (user_skills : list string)
    (job_profile : JobProfile.t) :
  (_calculate_skills_match user_skills job_profile
   == ratio (length (_get_matching_skills user_skills job_profile))
            (length user_skills))%Q
  /\ (_get_matching_skills user_skills job_profile = [] <->
      (_calculate_skills_match user_skills job_profile == 0)%Q).
Proof.
  assert (_calculate_skills_match user_skills job_profile
          == ratio (length (_get_matching_skills user_skills job_profile))
                   (length user_skills))%Q as R.
  { unfold _calculate_skills_match, _get_matching_skills.
    destruct user_skills as [| s rest]; [reflexivity |].
    by rewrite count_skills_foldl. }
  split; [exact R |]. rewrite R. split.
  - intros ->. unfold ratio, Qdiv. cbn [length].
    change (inject_Z (Z.of_nat 0)) with 0%Q. apply Qmult_0_l.
  - intros Z0. destruct user_skills as [| s rest]; [done |].
    destruct (_get_matching_skills (s :: rest) job_profile) as [| m ms]; [done |].
    exfalso. unfold ratio in Z0.
    pose proof (inject_nat_pos (length (m :: ms)) ltac:(simpl; lia)) as Hm.
    pose proof (inject_nat_pos (length (s :: rest)) ltac:(simpl; lia)) as Hs.
    assert (0 < inject_Z (Z.of_nat (length (m :: ms)))
                / inject_Z (Z.of_nat (length (s :: rest))))%Q; [| lra].
    apply Qlt_shift_div_l; lra.
Qed.

(** ** Course-category fit *)

Lemma course_step_cases (e : Engine.t) (category : string) (acc : Q)
    (course : string * string) :
  let step :=
    (let '(course_name, graduation_status) := course in
     match Engine.job_categories_mapping e !! course_name with
     | Some categories =>
         if bool_decide (category ∈ categories) then
           let score :=
             if String.eqb graduation_status "graduated" then 1%Q else 8 # 10 in
           py_max acc score
         else acc
     | None => acc
     end) in
  (~ course_qualifies e category course /\ step = acc)
  \/ (course_qualifies e category course /\ snd course = "graduated"
      /\ step = py_max acc 1)
  \/ (course_qualifies e category course /\ snd course <> "graduated"
      /\ step = py_max acc (8 # 10)).
Proof.
  destruct course as [c g]. simpl. unfold course_qualifies. simpl.
  destruct (Engine.job_categories_mapping e !! c) as [cats |] eqn:M.
  - destruct (bool_decide_reflect (category ∈ cats)) as [Y | N].
    + destruct (String.eqb_spec g "graduated") as [-> | Hg].
      * right. left. split; [by exists cats | done].
      * right. right. split; [by exists cats | done].
    + left. split; [| done]. intros (cats' & [= <-] & H). done.
  - left. split; [| done]. intros (cats' & [=] & _).
Qed.

Lemma course_fold_cases (e : Engine.t) (category : string)
    (courses : list (string * string)) (acc : Q) :
  (acc = 0%Q \/ acc = 8 # 10 \/ acc = 1%Q) ->
  let result :=
    foldl (fun max_score course =>
             let '(course_name, graduation_status) := course in
             match Engine.job_categories_mapping e !! course_name with
             | Some categories =>
                 if bool_decide (category ∈ categories) then
                   let score :=
                     if String.eqb graduation_status "graduated" then 1%Q else 8 # 10 in
                   py_max max_score score
                 else max_score
             | None => max_score
             end) acc courses in
  (result = 1%Q
   /\ (acc = 1%Q \/ Exists (fun c => course_qualifies e category c
                                     /\ snd c = "graduated") courses))
  \/ (result = 8 # 10
      /\ (acc = 8 # 10 \/ Exists (course_qualifies e category) courses)
      /\ acc <> 1%Q
      /\ ~ Exists (fun c => course_qualifies e category c /\ snd c = "graduated") courses)
  \/ (result = 0%Q /\ acc = 0%Q /\ ~ Exists (course_qualifies e category) courses).
Proof.
  revert acc. induction courses as [| c courses IH]; intros acc Hacc; simpl.
  - destruct Hacc as [-> | [-> | ->]].
    + right. right. split; [done |]. split; [done |]. intros X; inversion X.
    + right. left. split; [done |]. split; [by left |]. split; [done |].
      intros X; inversion X.
    + left. split; [done | by left].
  - pose proof (course_step_cases e category acc c) as S. simpl in S.
    destruct S as [[Nq ->] | [[Yq [Hg ->]] | [Yq [Hg ->]]]].
    + destruct (IH acc Hacc) as [[R H] | [[R (H1 & H2 & H3)] | [R (H1 & H2)]]].
      * left. split; [exact R |]. destruct H as [H | H]; [by left | right; by right].
      * right. left. split; [exact R |]. split; [| split; [done |]].
        -- destruct H1 as [H1 | H1]; [by left | right; by right].
        -- rewrite Exists_cons. intros [[Q _] | H]; done.
      * right. right. split; [exact R |]. split; [done |].
        rewrite Exists_cons. intros [Q | H]; done.
    + assert (py_max acc 1 = 1%Q) as ->.
      { destruct Hacc as [-> | [-> | ->]]; reflexivity. }
      destruct (IH 1%Q ltac:(auto)) as [[R H] | [[R (H1 & H2 & H3)] | [R (H1 & H2)]]];
        [| done | done].
      left. split; [exact R |]. right. by left.
    + assert ((acc = 1%Q /\ py_max acc (8 # 10) = 1%Q)
              \/ (acc <> 1%Q /\ py_max acc (8 # 10) = 8 # 10)) as [[E ->] | [E ->]].
      { destruct Hacc as [-> | [-> | ->]]; [right | right | left]; by split. }
      * destruct (IH 1%Q ltac:(auto)) as [[R H] | [[R (H1 & H2 & H3)] | [R (H1 & H2)]]];
          [| done | done].
        left. split; [exact R |]. by left.
      * destruct (IH (8 # 10) ltac:(auto))
          as [[R H] | [[R (H1 & H2 & H3)] | [R (H1 & H2)]]]; [| | done].
        -- left. split; [exact R |]. destruct H as [H | H]; [done |]. right. by right.
        -- right. left. split; [exact R |]. split; [right; by left |].
           split; [exact E |]. rewrite Exists_cons. intros [[_ G] | H]; done.
Qed.

(** X9: the course sub-score takes one of three values: 1 when some course of
    the user that qualifies for the job's category (the mapping lists the
    category under the course's name) has status "graduated", 0.8 when some
    course qualifies but none of the qualifying ones is graduated, and 0 when
    no course qualifies, in particular for a user without courses. *)
Theorem course_match_characterised (e : Engine.t)
    (user_courses : list (string * string)) (job_category : string) :
  let score := _calculate_course_match e user_courses job_category in
  let qualifies := course_qualifies e job_category in
  (score = 1%Q
   /\ Exists (fun c => qualifies c /\ snd c = "graduated") user_courses)
  \/ (score = 8 # 10
      /\ Exists qualifies user_courses
      /\ ~ Exists (fun c => qualifies c /\ snd c = "graduated") user_courses)
  \/ (score = 0%Q /\ ~ Exists qualifies user_courses).
Proof.
  simpl. unfold _calculate_course_match.
  destruct user_courses as [| c0 rest].
  { right. right. split; [done | intros X; inversion X]. }
  destruct (course_fold_cases e job_category (c0 :: rest) 0%Q ltac:(auto))
    as [[R H] | [[R (H1 & H2 & H3)] | [R (H1 & H2)]]].
  - left. split; [exact R |]. destruct H as [H | H]; [discriminate | exact H].
  - right. left. split; [exact R |]. split; [| exact H3].
    destruct H1 as [H1 | H1]; [discriminate | exact H1].
  - right. right. by split.
Qed.

(** ** Knowledge scorer: texts, tiers and the word-overlap backend *)

(** X10: the knowledge scorer explains a similarity with at most one reason,
    the one of the highest tier the similarity exceeds (0.7, 0.5, 0.3), and
    with none exactly when the similarity is at most 0.3. *)
Theorem similarity_reason_tiers (similarity : Q) :
  (similarity_reasons similarity = [] <-> (similarity <= 3 # 10)%Q)
  /\ (length (similarity_reasons similarity) <= 1)%nat
  /\ ((7 # 10 < similarity)%Q ->
      similarity_reasons similarity
      = ["Strong semantic match between your profile and job requirements"])
  /\ ((5 # 10 < similarity <= 7 # 10)%Q ->
      similarity_reasons similarity = ["Good compatibility with job description"])
  /\ ((3 # 10 < similarity <= 5 # 10)%Q ->
      similarity_reasons similarity = ["Some relevant experience matches job needs"]).
Proof.
  unfold similarity_reasons.
  destruct (Qltb (7 # 10) similarity) eqn:T7;
    destruct (Qltb (5 # 10) similarity) eqn:T5;
    destruct (Qltb (3 # 10) similarity) eqn:T3;
    repeat match goal with
           | H : Qltb _ _ = true |- _ => apply Qltb_true in H
           | H : Qltb _ _ = false |- _ => apply Qltb_false in H
           end;
    repeat split; intros;
    repeat match goal with H : _ /\ _ |- _ => destruct H end;
    first [reflexivity | lra | done | (simpl; lia) | (exfalso; lra)].
Qed.

Lemma similarity_reason_tiers_witness :
  similarity_reasons (6 # 10) = ["Good compatibility with job description"].
Proof.
  apply (similarity_reason_tiers (6 # 10)). split; [reflexivity | discriminate].
Defined.








Lemma lower_char_idemp (c : ascii) :
  Text.lower_char (Text.lower_char c) = Text.lower_char c.
Proof. destruct c as [[] [] [] [] [] [] [] []]; reflexivity. Qed.

Lemma lower_idemp (s : string) : Text.lower (Text.lower s) = Text.lower s.
Proof.
  induction s as [| c s IH]; simpl; [done |]. by rewrite lower_char_idemp, IH.
Qed.

(** X22: letter case never matters to the two lexical comparisons:
    lower-casing either text leaves the word-overlap similarity unchanged, and
    lower-casing the user's skills leaves the skills sub-score unchanged. *)
Theorem lexical_matching_ignores_case (user_text job_text : string)
    (user_skills : list string) (job_profile : JobProfile.t) :
  _calculate_simple_text_similarity (Text.lower user_text) job_text
  = _calculate_simple_text_similarity user_text job_text
  /\ _calculate_simple_text_similarity user_text (Text.lower job_text)
     = _calculate_simple_text_similarity user_text job_text
  /\ _calculate_skills_match (map Text.lower user_skills) job_profile
     = _calculate_skills_match user_skills job_profile.
Proof.
  unfold _calculate_simple_text_similarity, word_set. rewrite !lower_idemp.
  split; [done |]. split; [done |].
  unfold _calculate_skills_match.
  destruct user_skills as [| s rest]; [done |].
  rewrite !count_skills_foldl, length_map.
  assert (forall l : list string,
            length (filter (fun skill =>
                              skill_matches (skills_job_text job_profile) skill = true)
                           (map Text.lower l))
            = length (filter (fun skill =>
                                skill_matches (skills_job_text job_profile) skill = true)
                             l)) as L.
  { induction l as [| x l IH]; [done |]. cbn [map].
    assert (skill_matches (skills_job_text job_profile) (Text.lower x)
            = skill_matches (skills_job_text job_profile) x) as E.
    { unfold skill_matches. by rewrite lower_idemp. }
    rewrite !filter_cons.
    destruct (skill_matches (skills_job_text job_profile) x) eqn:M.
    - rewrite !decide_True by congruence. simpl. by rewrite IH.
    - rewrite !decide_False by congruence. exact IH. }
  by rewrite L.
Qed.

(** ** Data access: courses, categories, skills *)

Lemma append_cons (c : ascii) (s t : string) : String c s +:+ t = String c (s +:+ t).
Proof. reflexivity. Qed.

Lemma append_snoc (cur : string) (c : ascii) (p : string) :
  (cur +:+ String c "") +:+ p = cur +:+ String c p.
Proof.
  induction cur as [| d cur IH]; [reflexivity |]. rewrite !append_cons. by f_equal.
Qed.

Lemma append_empty_r (s : string) : s +:+ "" = s.
Proof.
  induction s as [| c s IH]; [reflexivity |]. rewrite append_cons. by f_equal.
Qed.

Lemma split_from_plain (cur p : string) :
  comma_free p = true -> Text.split_from cur p = [cur +:+ p].
Proof.
  revert cur. induction p as [| c p IH]; intros cur H;
    cbn [Text.split_from comma_free] in *.
  - by rewrite append_empty_r.
  - apply andb_true_iff in H as [Hc Hp]. apply negb_true_iff in Hc. rewrite Hc.
    rewrite IH by done. f_equal. apply append_snoc.
Qed.

Lemma split_from_comma (cur p rest : string) :
  comma_free p = true ->
  Text.split_from cur (p +:+ String "," rest)
  = (cur +:+ p) :: Text.split_from "" rest.
Proof.
  revert cur. induction p as [| c p IH]; intros cur H.
  - change ("" +:+ String "," rest) with (String "," rest).
    cbn [Text.split_from]. change (Ascii.eqb "," ",") with true.
    by rewrite append_empty_r.
  - rewrite append_cons. cbn [Text.split_from comma_free] in *.
    apply andb_true_iff in H as [Hc Hp]. apply negb_true_iff in Hc. rewrite Hc.
    rewrite IH by done. f_equal. apply append_snoc.
Qed.

Lemma split_join (parts : list string) :
  parts <> [] -> Forall (fun p => comma_free p = true) parts ->
  Text.split_comma (Text.join "," parts) = parts.
Proof.
  unfold Text.split_comma. intros Hne Hall.
  induction Hall as [| p rest Hp Hrest IH]; [done |].
  destruct rest as [| q rest].
  - simpl. by rewrite split_from_plain.
  - cbn [Text.join]. change ("," +:+ ?x) with (String "," x).
    rewrite split_from_comma by done. simpl. f_equal. by apply IH.
Qed.

Lemma split_from_not_nil (cur s : string) : Text.split_from cur s <> [].
Proof.
  revert cur. induction s as [| c s IH]; intros cur; simpl; [done |].
  destruct (Ascii.eqb c ","); [done | apply IH].
Qed.

Lemma join_split_from (cur s : string) :
  Text.join "," (Text.split_from cur s) = cur +:+ s.
Proof.
  revert cur. induction s as [| c s IH]; intros cur; simpl.
  - by rewrite append_empty_r.
  - destruct (Ascii.eqb_spec c ",") as [-> | Hc].
    + pose proof (split_from_not_nil "" s) as N. specialize (IH "").
      destruct (Text.split_from "" s) as [| x xs]; [done |].
      cbn [Text.join] in *. rewrite IH. reflexivity.
    + by rewrite IH, append_snoc.
Qed.

Lemma join_plain_nonempty (parts : list string) :
  parts <> [] -> Forall plain_name parts ->
  Text.nonempty (Text.join "," parts) = true.
Proof.
  intros Hne Hall. destruct Hall as [| p rest [_ Hp] _]; [done |].
  destruct p as [| c p]; [done |]. by destruct rest.
Qed.

(** X12: [get_user_profile] recovers the course list from the two
    comma-joined columns of its query: when the course names and graduation
    statuses are non-empty and without commas, the parsed [courses_list] is
    the list of (course, status) pairs, cut to the shorter of the two lists.
    Joining the pieces of any split string with commas gives the string
    back. *)
Theorem parse_courses_round_trip (row : ProfileRow) (courses statuses : list string) :
  courses <> [] ->
  Forall plain_name courses -> Forall plain_name statuses ->
  row_courses row = Some (Text.join "," courses) ->
  row_graduation_statuses row = Some (Text.join "," statuses) ->
  DatabaseManager.parse_courses row = combine courses statuses
  /\ forall s, Text.join "," (Text.split_comma s) = s.
Proof.
  intros Hne Hc Hs Rc Rs. split; [| intros s; apply join_split_from].
  unfold DatabaseManager.parse_courses. rewrite Rc, Rs.
  rewrite join_plain_nonempty by done.
  rewrite split_join; [| done | eapply Forall_impl; [exact Hc | by intros ? []]].
  destruct statuses as [| g gs].
  - simpl. by destruct courses.
  - rewrite join_plain_nonempty by done.
    rewrite split_join; [done | done |].
    eapply Forall_impl; [exact Hs | by intros ? []].
Qed.

Lemma parse_courses_round_trip_witness :
  DatabaseManager.parse_courses
    {| row_first_name := "Ana"; row_last_name := "Cruz"; row_student_type := "alumni";
       row_age := None; row_profile_completed := true;
       row_courses := Some "BSIT,BSCS";
       row_graduation_statuses := Some "graduated,ongoing" |}
  = [("BSIT", "graduated"); ("BSCS", "ongoing")].
Proof.
  apply (parse_courses_round_trip _ ["BSIT"; "BSCS"] ["graduated"; "ongoing"]);
    try reflexivity; try discriminate;
    repeat constructor; discriminate.
Defined.

Lemma group_categories_from (rows : list (string * string))
    (m : gmap string (list string)) (course : string) :
  default []
    (foldl (fun mapping row =>
              let '(course, category) := row in
              <[course := default [] (mapping !! course) ++ [category]]> mapping)
           m rows !! course)
  = default [] (m !! course)
    ++ map snd (List.filter (fun row => String.eqb (fst row) course) rows).
Proof.
  revert m. induction rows as [| [c g] rows IH]; intros m; simpl.
  - by rewrite app_nil_r.
  - rewrite IH. destruct (String.eqb_spec c course) as [-> | Hne].
    + rewrite lookup_insert_eq. simpl. by rewrite <- app_assoc.
    + by rewrite lookup_insert_ne.
Qed.

(** X13: the course-category mapping built from the rows of the categories
    query lists, for every course, the categories of that course's rows in
    query order; a category is found under a course exactly when the pair is
    one of the rows, and a failing query gives the empty mapping. *)
Theorem group_categories_lookup (rows : list (string * string))
    (course category : string) (sql : SqlServer) :
  default [] (DatabaseManager.group_categories rows !! course)
  = map snd (List.filter (fun row => String.eqb (fst row) course) rows)
  /\ (In category (default [] (DatabaseManager.group_categories rows !! course))
      <-> In (course, category) rows)
  /\ (select_job_categories sql = Raises ->
      DatabaseManager.get_job_categories_mapping sql = ∅).
Proof.
  assert (default [] (DatabaseManager.group_categories rows !! course)
          = map snd (List.filter (fun row => String.eqb (fst row) course) rows)) as L.
  { unfold DatabaseManager.group_categories.
    by rewrite group_categories_from, lookup_empty. }
  split; [exact L |]. split.
  - rewrite L, in_map_iff. split.
    + intros ([c g] & <- & Hin). apply List.filter_In in Hin as [Hin E].
      simpl in E. apply String.eqb_eq in E. by subst.
    + intros Hin. exists (course, category). split; [done |].
      apply List.filter_In. split; [done |]. simpl. apply String.eqb_refl.
  - intros R. unfold DatabaseManager.get_job_categories_mapping. by rewrite R.
Qed.

Lemma group_categories_lookup_witness :
  DatabaseManager.get_job_categories_mapping failing_categories_sql = ∅.
Proof.
  apply (group_categories_lookup [] "" "" failing_categories_sql). reflexivity.
Defined.

(** X17: from a resume whose skills column is a flat list of strings the
    extracted skills are that list; in general every item contributes at most
    one skill, a record with a "name" contributes it whatever its "skill"
    field says, and a missing or undecodable column gives no skill. *)
Theorem extract_skills_shapes (resume_data : ResumeData) (items : list Item)
    (names : list string) (d : gmap string string) (name : string) :
  (rd_skills resume_data = Some items ->
   (length (_extract_skills_from_resume resume_data) <= length items)%nat)
  /\ (rd_skills resume_data = Some (map ItemStr names) ->
      _extract_skills_from_resume resume_data = names)
  /\ (rd_skills resume_data = Some [ItemDict d] -> d !! "name" = Some name ->
      _extract_skills_from_resume resume_data = [name])
  /\ (rd_skills resume_data = None -> _extract_skills_from_resume resume_data = []).
Proof.
  unfold _extract_skills_from_resume. repeat split.
  - intros ->. induction items as [| it items IH]; simpl; [lia |].
    rewrite length_app.
    destruct it as [s | dd |]; simpl; [lia | | lia].
    destruct (dd !! "name"), (dd !! "skill"); simpl; lia.
  - intros ->. induction names as [| n names IH]; simpl; [done | by rewrite IH].
  - intros -> Hn. simpl. by rewrite Hn.
  - by intros ->.
Qed.

Lemma extract_skills_shapes_witness :
  _extract_skills_from_resume sample_resume = ["Python"; "SQL"]
  /\ (length (_extract_skills_from_resume sample_resume) <= 2)%nat.
Proof.
  split; [reflexivity |].
  apply (extract_skills_shapes sample_resume
           [ItemStr "Python"; ItemDict (<["name" := "SQL"]> ∅)] [] ∅ "").
  reflexivity.
Defined.

(** ** Lifecycle and the entry point *)

(** X16: an engine that is not initialised answers every request with the
    error "Recommendation engine not initialized", without reading the
    database or touching its state; the API reports it as a 400, the status it
    also uses for an unknown user. *)
Theorem not_ready_raises (lib : Libs) (cfg : Config.t) (sql : SqlServer)
    (e : Engine.t) (user_id limit : Z) (include_reasons : bool) :
  is_ready e = false ->
  get_recommendations lib cfg sql e user_id limit include_reasons
  = (Raised (ValueError "Recommendation engine not initialized"), e)
  /\ recommendations_endpoint lib cfg sql e user_id limit include_reasons
     = HTTPException 400 "Recommendation engine not initialized"
  /\ is_ready (initialize lib cfg sql e) = true.
Proof.
  intros R. unfold recommendations_endpoint, get_recommendations. rewrite R.
  repeat split.
Qed.

Lemma not_ready_raises_witness :
  get_recommendations sample_libs Config.defaults sample_sql Engine.new 1 10 true
  = (Raised (ValueError "Recommendation engine not initialized"), Engine.new).
Proof.
  apply (not_ready_raises sample_libs Config.defaults sample_sql Engine.new 1 10 true).
  reflexivity.
Defined.

(** X18: for a known user on an initialised engine, a jobs query that fails
    or finds no active job gives the empty recommendation list, not an error,
    and leaves the engine as it was. *)
Theorem no_jobs_returns_empty (lib : Libs) (cfg : Config.t) (sql : SqlServer)
    (e : Engine.t) (user_id limit : Z) (include_reasons : bool) :
  let query_limit :=
    if (Config.MAX_RECOMMENDATIONS cfg =? 0)%Z then None
    else Some (Config.MAX_RECOMMENDATIONS cfg) in
  is_ready e = true ->
  is_Some (DatabaseManager.get_user_profile sql user_id) ->
  select_active_jobs sql query_limit = Raises
  \/ select_active_jobs sql query_limit = Rows [] ->
  get_recommendations lib cfg sql e user_id limit include_reasons = (Returned [], e).
Proof.
  intros query_limit R [pd P] J. unfold get_recommendations. rewrite R. cbn [negb].
  unfold _build_user_profile. rewrite P.
  assert (DatabaseManager.get_active_jobs sql (Some (Config.MAX_RECOMMENDATIONS cfg))
          = []) as ->; [| done].
  unfold DatabaseManager.get_active_jobs. fold query_limit.
  by destruct J as [-> | ->].
Qed.

Lemma no_jobs_returns_empty_witness :
  get_recommendations sample_libs Config.defaults failing_jobs_sql sample_engine 1 10 true
  = (Returned [], sample_engine).
Proof.
  apply (no_jobs_returns_empty sample_libs Config.defaults failing_jobs_sql
           sample_engine 1 10 true);
    [reflexivity | by eexists | left; reflexivity].
Defined.

(** X21: initialising twice is the same as initialising once, and retraining
    an initialised engine changes nothing but the similarity cache, which it
    empties (the environment, configuration and database answers being the
    same). *)
Theorem initialize_idempotent (lib : Libs) (cfg : Config.t) (sql : SqlServer)
    (e : Engine.t) :
  initialize lib cfg sql (initialize lib cfg sql e) = initialize lib cfg sql e
  /\ retrain_models cfg sql (initialize lib cfg sql e)
     = Engine.with_cache ∅ (initialize lib cfg sql e).
Proof.
  unfold initialize, retrain_models, _load_popular_jobs,
    _load_job_categories_mapping, _load_ml_models, Engine.with_cache.
  destruct e as [i sm tv c m p]. simpl.
  destruct (Config.ENABLE_POPULARITY_BOOST cfg); simpl;
    destruct (SENTENCE_TRANSFORMERS_AVAILABLE lib && Config.USE_SEMANTIC_SIMILARITY cfg);
    destruct (SKLEARN_AVAILABLE lib); split; reflexivity.
Qed.

(** X24: on an engine initialised from scratch the feature list names the
    similarity backend the knowledge scorer really uses: it lists
    "semantic_similarity_bert" exactly when the embedding path is taken,
    "tfidf_similarity" exactly when the TF-IDF path is taken, and neither
    when similarity falls back to word overlap. *)
Theorem features_name_the_backend (lib : Libs) (cfg : Config.t) (sql : SqlServer)
    (cache : gmap string Q) (user_text job_text : string) :
  let e := initialize lib cfg sql Engine.new in
  let features := _set_algorithm_features cfg e in
  let similarity := fst (similarity_backend lib cfg e cache user_text job_text) in
  match Engine.sentence_model e with
  | Some model =>
      In "semantic_similarity_bert" features /\ ~ In "tfidf_similarity" features
      /\ similarity
         = fst (_calculate_semantic_similarity_bert lib cfg model cache user_text job_text)
  | None =>
      ~ In "semantic_similarity_bert" features
      /\ if SKLEARN_AVAILABLE lib
         then In "tfidf_similarity" features
              /\ similarity
                 = _calculate_tfidf_similarity (new_TfidfVectorizer lib) user_text job_text
         else ~ In "tfidf_similarity" features
              /\ similarity = _calculate_simple_text_similarity user_text job_text
  end.
Proof.
  unfold initialize, _load_popular_jobs, _load_job_categories_mapping,
    _load_ml_models, _set_algorithm_features, similarity_backend. simpl.
  destruct (Config.ENABLE_POPULARITY_BOOST cfg),
    (Config.ENABLE_DIVERSITY_BOOST cfg),
    (SENTENCE_TRANSFORMERS_AVAILABLE lib && Config.USE_SEMANTIC_SIMILARITY cfg);
    simpl;
    try destruct (SentenceTransformer lib (Config.SENTENCE_TRANSFORMER_MODEL cfg));
    simpl; destruct (SKLEARN_AVAILABLE lib); simpl;
    repeat split; try tauto;
    intros H; repeat (destruct H as [H | H]; [discriminate |]); exact H.
Qed.

(** X25: the debug lookup and the recommendation entry point reject the same
    users: on an initialised engine [get_user_profile_debug] answers
    "User profile not found" exactly when [get_recommendations] raises its
    "No profile found" error; for a user whose resume read yields nothing
    the three counts are 0. *)
Theorem debug_profile_agrees_with_entry_point (lib : Libs) (cfg : Config.t)
    (sql : SqlServer) (e : Engine.t) (user_id limit : Z) (include_reasons : bool) :
  is_ready e = true ->
  (get_user_profile_debug sql user_id = inl "User profile not found"
   <-> fst (get_recommendations lib cfg sql e user_id limit include_reasons)
       = Raised (no_profile_found user_id))
  /\ (forall info, get_user_profile_debug sql user_id = inr info ->
      DatabaseManager.get_user_resume sql user_id true = None ->
      dbg_has_completed_resume info = false
      /\ dbg_skills_count info = 0%nat
      /\ dbg_work_experience_count info = 0%nat
      /\ dbg_education_count info = 0%nat).
Proof.
  intros R.
  pose proof (get_recommendations_outcome lib cfg sql e user_id limit include_reasons R)
    as O.
  unfold get_user_profile_debug. split.
  - destruct (_build_user_profile sql user_id) as [u |].
    + destruct O as [recs ->]. split; discriminate.
    + split; [intros _; exact O | done].
  - intros info. unfold _build_user_profile.
    destruct (DatabaseManager.get_user_profile sql user_id) as [pd |]; [| discriminate].
    intros H N. rewrite N in H. injection H as <-. simpl. auto.
Qed.

Lemma debug_profile_agrees_with_entry_point_witness :
  get_user_profile_debug sample_sql 2 = inl "User profile not found".
Proof.
  apply (debug_profile_agrees_with_entry_point sample_libs Config.defaults sample_sql
           sample_engine 2 10 true); reflexivity.
Defined.
